(** * Eradiate: data-set resolver and gridded BRDF adapter

    A shallow embedding of two leaves of the Eradiate front-end:

    - [eradiate/data/__init__.py]: [open], [registered] and [find], which
      route a (category, id) pair or a path to a data set;
    - [eradiate/util/brdf_viewer.py]: [DataArrayBRDFAdapter], its
      validator [_check_data], its [__attrs_post_init__], the helper
      [_copy_phi_o_values] and [plotting_data].

    Python exceptions are values of [exn]; a call that may raise returns
    a [result].  Dictionaries are stdpp finite maps, labelled arrays are
    an ordered list of named axes over a positional cell function. *)

From Stdlib Require Import ZArith Ascii String List Bool Lia Permutation.
From stdpp Require Import gmap strings list fin_maps pretty.

Local Open Scope string_scope.
Local Open Scope Z_scope.

(** ** Exceptions and fallible calls *)

(** A dictionary or index key: a name or a coordinate label. *)
Inductive pykey : Type :=
| StrKey (s : string)
| NumKey (z : Z).

Inductive exn : Type :=
| TypeError (msg : string)
| ValueError (msg : string)
| KeyError (key : pykey)
| IndexError (msg : string)
| AttributeError (msg : string).

Inductive result (A : Type) : Type :=
| Ok (a : A)
| Raise (e : exn).

Arguments Ok {A} a.
Arguments Raise {A} e.

#[global] Instance result_bind : MBind result := fun _ _ k r =>
  match r with
  | Ok a => k a
  | Raise e => Raise e
  end.

(** ** [os.path.splitext] (POSIX flavour)

    [genericpath._splitext] with [sep = "/"] and [extsep = "."]: the
    extension starts at the last dot of the last path component, and the
    leading dots of that component do not start an extension. *)

Module OsPath.

Definition sep : ascii := "/"%char.
Definition extsep : ascii := "."%char.

(** [p.rfind(c)]: the highest index holding [c], or [-1]. *)
Fixpoint rfind_from (c : ascii) (p : list ascii) (i : Z) (found : Z) : Z :=
  match p with
  | [] => found
  | x :: p' => rfind_from c p' (i + 1) (if Ascii.eqb x c then i else found)
  end.

Definition rfind (c : ascii) (p : string) : Z :=
  rfind_from c (list_ascii_of_string p) 0 (-1).

(** The [while filenameIndex < dotIndex] loop: [n] iterations remain;
    [true] when some character in the window differs from [extsep]. *)
Fixpoint has_non_dot (p : list ascii) (n : nat) : bool :=
  match n, p with
  | O, _ => false
  | S _, [] => false
  | S n', x :: p' => if Ascii.eqb x extsep then has_non_dot p' n' else true
  end.

Definition splitext (p : string) : string * string :=
  let sepIndex := rfind sep p in
  let dotIndex := rfind extsep p in
  if dotIndex >? sepIndex then
    let filenameIndex := sepIndex + 1 in
    if has_non_dot (skipn (Z.to_nat filenameIndex) (list_ascii_of_string p))
                   (Z.to_nat (dotIndex - filenameIndex))
    then (substring 0 (Z.to_nat dotIndex) p,
          substring (Z.to_nat dotIndex) (String.length p - Z.to_nat dotIndex) p)
    else (p, "")
  else (p, "").

End OsPath.

(** ** [eradiate.data]: the resource resolver *)

Module Data.

Section Resolver.

(** What [xarray.open_dataset] and the getters return. *)
Variable Dataset : Type.

(** The capability set of a getter class.  The getter classes live in
    [absorption_spectra] and [solar_irradiance_spectra]; the resolver
    only calls these three entry points. *)
Record Getter : Type := mkGetter {
  getter_open : string -> result Dataset;
  getter_registered : result (list string);
  getter_find : result (gmap string bool)
}.

Variable _AbsorptionGetter : Getter.
Variable _SolarIrradianceGetter : Getter.

(** [_presolver.resolve] and [xr.open_dataset]: both read the file
    system, which is fixed for the duration of a call. *)
Variable resolve : string -> result string.
Variable open_dataset : string -> result Dataset.

Definition _getters : gmap string Getter :=
  <["absorption_spectrum" := _AbsorptionGetter]>
    (<["solar_irradiance_spectrum" := _SolarIrradianceGetter]> ∅).

Definition invalid_category (category : string) : exn :=
  ValueError ("invalid data category '" ++ category ++ "'").

Definition missing_arguments : exn :=
  ValueError "if 'path' is None, 'category' and 'id' must not be None".

Definition cannot_load (fname : string) : exn :=
  ValueError ("cannot load resource " ++ fname).

(** [open(category=None, id=None, path=None)]; [None] is Python's. *)
Definition open (category id path : option string) : result Dataset :=
  match path with
  | None =>
      match category, id with
      | Some category, Some id =>
          match _getters !! category with
          | None => Raise (invalid_category category)
          | Some getter =>
              (* try: return getter.open(id) / except ValueError: raise *)
              match getter_open getter id with
              | Ok ds => Ok ds
              | Raise e => Raise e
              end
          end
      | _, _ => Raise missing_arguments
      end
  | Some path =>
      fname ← resolve path;
      let ext := snd (OsPath.splitext fname) in
      if String.eqb ext ".nc" then open_dataset fname
      else Raise (cannot_load fname)
  end.

Definition registered (category : string) : result (list string) :=
  match _getters !! category with
  | None => Raise (invalid_category category)
  | Some getter => getter_registered getter
  end.

Definition find (category : string) : result (gmap string bool) :=
  match _getters !! category with
  | None => Raise (invalid_category category)
  | Some getter => getter_find getter
  end.

End Resolver.

End Data.

(** ** [eradiate.util.brdf_viewer]: the gridded adapter *)

Module BrdfViewer.

Definition FLAG_GRIDDED_ADAPTER : Z := 1. (* 0b01 *)
Definition FLAG_SAMPLED_ADAPTER : Z := 2. (* 0b10 *)

(** [numpy.ndarray]: a shape and the cell at each positional index. *)
Record ndarray (A : Type) : Type := mk_ndarray {
  shape : list nat;
  item : list nat -> A
}.
Arguments mk_ndarray {A} shape item.
Arguments shape {A} n.
Arguments item {A} n idx.

(** [xarray.DataArray]: the axes in storage order, each a dimension
    name with its coordinate sequence, over the cells.  Coordinate
    labels are the numbers of the grid (degrees, nanometres); the code
    only compares them with [==], and they are integers here. *)
Record DataArray (A : Type) : Type := mkDataArray {
  axes : list (string * list Z);
  values : list nat -> A
}.
Arguments mkDataArray {A} axes values.
Arguments axes {A} d.
Arguments values {A} d idx.

Section Labelled.
Context {A : Type}.

(** [a.dims] *)
Definition dims (a : DataArray A) : list string := (axes a).*1.

(** [a.shape] *)
Definition sizes (a : DataArray A) : list nat :=
  (fun ax => length ax.2) <$> axes a.

(** [a.data] *)
Definition to_numpy (a : DataArray A) : ndarray A :=
  mk_ndarray (sizes a) (values a).

Fixpoint lookup_axis (dim : string) (l : list (string * list Z))
  : option (list Z) :=
  match l with
  | [] => None
  | (d, c) :: l' => if decide (d = dim) then Some c else lookup_axis dim l'
  end.

(** Position of [dim] among the dimension names. *)
Fixpoint index_of (dim : string) (ds : list string) : option nat :=
  match ds with
  | [] => None
  | d :: ds' =>
      if decide (d = dim) then Some O else S <$> index_of dim ds'
  end.

(** [a.coords[dim]] *)
Definition coord (a : DataArray A) (dim : string) : result (list Z) :=
  match lookup_axis dim (axes a) with
  | Some c => Ok c
  | None => Raise (KeyError (StrKey dim))
  end.

(** The cell that a by-name index [env] designates. *)
Definition at_name (a : DataArray A) (env : string -> nat) : A :=
  values a (env <$> dims a).

(** The by-name reading of a positional index over [ds]. *)
Definition env_of (ds : list string) (idx : list nat) : string -> nat :=
  fun dim =>
    match index_of dim ds with
    | Some k => nth k idx O
    | None => O
    end.

End Labelled.

(** [key in c] on a coordinate: [(c == key).any()]. *)
Definition contains (c : list Z) (key : Z) : bool :=
  existsb (fun x => x =? key) c.

(** [pandas.Index.get_loc] on an index with unique labels: the
    position of the label. *)
Fixpoint get_loc (c : list Z) (label : Z) : option nat :=
  match c with
  | [] => None
  | x :: c' => if x =? label then Some O else S <$> get_loc c' label
  end.

(** [a.sel(dim=label)]: exact-match selection; the axis is dropped. *)
Definition sel {A : Type} (a : DataArray A) (dim : string) (label : Z)
  : result (DataArray A) :=
  match index_of dim (dims a), lookup_axis dim (axes a) with
  | Some k, Some c =>
      match get_loc c label with
      | Some p =>
          Ok (mkDataArray (delete k (axes a))
                (fun idx => values a (take k idx ++ p :: drop k idx)))
      | None => Raise (KeyError (NumKey label))
      end
  | _, _ =>
      Raise (ValueError
               ("dimensions or multi-index levels ['" ++ dim ++ "'] do not exist"))
  end.

(** *** Positional indexing with [np.arange] keys

    The key [[arange(n0), ..., arange(nk)]] selects, on the leading
    axes, the block of the first [n_i] positions.  The key lines up
    with the axis names when the array is laid out as the class
    documents; xarray's label bookkeeping for a key whose dimension
    name differs from the axis it indexes is not part of this model. *)

Fixpoint within (bounds idx : list nat) : bool :=
  match bounds, idx with
  | [], _ => true
  | _ :: _, [] => false
  | n :: bounds', i :: idx' => (i <? n)%nat && within bounds' idx'
  end.

Fixpoint fits (key shp : list nat) : bool :=
  match key, shp with
  | [], _ => true
  | _ :: _, [] => false
  | n :: key', s :: shp' => (n <=? s)%nat && fits key' shp'
  end.

Definition block_shape (key shp : list nat) : list nat :=
  key ++ drop (length key) shp.

Definition getitem {A : Type} (a : DataArray A) (key : list nat)
  : result (ndarray A) :=
  if fits key (sizes a)
  then Ok (mk_ndarray (block_shape key (sizes a)) (values a))
  else Raise (IndexError "index out of bounds").

Definition setitem {A : Type} (a : DataArray A) (key : list nat)
    (v : ndarray A) : result (DataArray A) :=
  if fits key (sizes a) then
    if decide (shape v = block_shape key (sizes a)) then
      Ok (mkDataArray (axes a)
            (fun idx => if within (block_shape key (sizes a)) idx
                        then item v idx else values a idx))
    else Raise (ValueError "shape mismatch")
  else Raise (IndexError "index out of bounds").

(** *** [xr.where]: broadcast by dimension name, exact join

    The output carries the dimensions of [cond], [x] and [y] in the
    order of their first appearance; an index that two arguments share
    must be the same in both. *)

Definition merge_axes (l1 l2 : list (string * list Z))
  : list (string * list Z) :=
  l1 ++ filter (fun ax => ax.1 ∉ l1.*1) l2.

Definition same_index (l1 l2 : list (string * list Z)) : bool :=
  forallb (fun ax => match lookup_axis ax.1 l1 with
                     | Some c => bool_decide (c = ax.2)
                     | None => true
                     end) l2.

Definition xr_where {A : Type} (cond : DataArray bool) (x y : DataArray A)
  : result (DataArray A) :=
  if same_index (axes cond) (axes x) && same_index (axes cond) (axes y)
     && same_index (axes x) (axes y)
  then
    let out := merge_axes (merge_axes (axes cond) (axes x)) (axes y) in
    Ok (mkDataArray out
          (fun idx =>
             let env := env_of out.*1 idx in
             if at_name cond env then at_name x env else at_name y env))
  else Raise (ValueError "indexes along a dimension are not equal").

(** [a.coords[dim] == label], a boolean array over [dim]. *)
Definition coord_eq (dim : string) (c : list Z) (label : Z) : DataArray bool :=
  mkDataArray [(dim, c)]
    (fun idx => match c !! (nth O idx O) with
                | Some x => x =? label
                | None => false
                end).

Fixpoint set_axis (dim : string) (c : list Z) (l : list (string * list Z))
  : list (string * list Z) :=
  match l with
  | [] => []
  | (d, c0) :: l' =>
      if decide (d = dim) then (d, c) :: l' else (d, c0) :: set_axis dim c l'
  end.

Section Adapter.

(** Cell values are only stored and copied; [zero] is what
    [np.zeros] fills a fresh array with. *)
Variable V : Type.
Variable zero : V.

(** What the constructor may be handed. *)
Inductive pyobj : Type :=
| PyDataArray (d : DataArray V)
| PyObject (type_repr : string).

(** An instance after [__init__]. *)
Record adapter : Type := mk_adapter {
  data : DataArray V;
  flag : Z
}.

Definition required_dims : list string :=
  ["theta_i"; "phi_i"; "theta_o"; "phi_o"; "wavelength"].

Definition missing_dimension (dim : string) : exn :=
  ValueError ("Required data dimension " ++ dim ++ " not present in data!").

(** The [for dim in required_dims] loop of the validator. *)
Fixpoint check_dims (required : list string) (ds : list string) : result unit :=
  match required with
  | [] => Ok tt
  | dim :: rest =>
      if decide (dim ∉ ds) then Raise (missing_dimension dim)
      else check_dims rest ds
  end.

(** [_check_data(self, attribute, value)]; attrs has stored [value]
    in [self.data] before it runs the validator. *)
Definition _check_data (value : pyobj) : result unit :=
  match value with
  | PyObject type_repr =>
      Raise (TypeError
               ("This class must be instantiated with a xarray.DataArrayFound: "
                  ++ type_repr))
  | PyDataArray d => check_dims required_dims (dims d)
  end.

Definition _copy_phi_o_values (self : DataArray V) (origin target : Z)
  : result (DataArray V) :=
  (* coords = {dim: ...}; coords["phi_o"] = np.append(coords["phi_o"], target) *)
  phi_o ← coord self "phi_o";
  let coords := set_axis "phi_o" (phi_o ++ [target]) (axes self) in
  (* empty = np.zeros(...); data_new = xr.DataArray(empty, coords, dims) *)
  let data_new := mkDataArray coords (fun _ => zero) in
  (* the five arange index arrays *)
  theta_i_ind ← coord self "theta_i";
  phi_i_ind ← coord self "phi_i";
  theta_o_ind ← coord self "theta_o";
  phi_o_ind ← coord self "phi_o";
  wavelength_ind ← coord self "wavelength";
  let key := [length theta_i_ind; length phi_i_ind; length theta_o_ind;
              length phi_o_ind; length wavelength_ind] in
  (* data_new[key] = self.data[key] *)
  block ← getitem self key;
  data_new ← setitem data_new key block;
  (* xr.where(data_new.coords["phi_o"] == target, self.data.sel(phi_o=origin), data_new) *)
  new_phi_o ← coord data_new "phi_o";
  origin_slice ← sel self "phi_o" origin;
  xr_where (coord_eq "phi_o" new_phi_o target) origin_slice data_new.

(** The attributes of an instance that are methods from
    [(origin, target)] to an array.  The class body binds
    [_copy_phi_o_values]; neither it nor its base binds a
    [copy_phi_o_values].  The other attributes ([data], [flag],
    [_check_data], [plotting_data], [__attrs_post_init__]) are never
    looked up through [call_method]. *)
Definition methods
  : gmap string (DataArray V -> Z -> Z -> result (DataArray V)) :=
  {[ "_copy_phi_o_values" := _copy_phi_o_values ]}.

Definition no_attribute (name : string) : exn :=
  AttributeError
    ("'DataArrayBRDFAdapter' object has no attribute '" ++ name ++ "'").

(** [self.<name>(origin, target)]: attribute lookup, then the call. *)
Definition call_method (self : DataArray V) (name : string)
    (origin target : Z) : result (DataArray V) :=
  match methods !! name with
  | Some method => method self origin target
  | None => Raise (no_attribute name)
  end.

Definition incomplete_boundary : exn :=
  ValueError "Data contains data for neither 0° nor 360°!".

Definition __attrs_post_init__ (self : DataArray V) : result adapter :=
  phi_o ← coord self "phi_o";
  new_data ←
    (if negb (contains phi_o 0) then
       call_method self "copy_phi_o_values" 360 0
     else if negb (contains phi_o 360) then
       call_method self "copy_phi_o_values" 0 360
     else if negb (contains phi_o 0) && negb (contains phi_o 360) then
       Raise incomplete_boundary
     else Ok self);
  Ok (mk_adapter new_data FLAG_GRIDDED_ADAPTER).

(** [DataArrayBRDFAdapter(value)]: store, validate, post-init. *)
Definition DataArrayBRDFAdapter (value : pyobj) : result adapter :=
  _ ← _check_data value;
  match value with
  | PyDataArray d => __attrs_post_init__ d
  | PyObject type_repr => Raise (TypeError type_repr) (* the validator raised *)
  end.

Definition no_exact_match : exn :=
  ValueError
    "Selected values don't align with data grid! Wavelength and incoming direction cannot be interpolated.".

Definition plotting_data (self : adapter) (wi : Z * Z) (wavelength : Z)
  : result (list Z * list Z * ndarray V) :=
  let '(theta_i, phi_i) := wi in
  (* a or b or c, left to right, stopping at the first true operand *)
  off_grid ←
    (c ← coord (data self) "theta_i";
     if negb (contains c theta_i) then Ok true else
     c ← coord (data self) "phi_i";
     if negb (contains c phi_i) then Ok true else
     c ← coord (data self) "wavelength";
     Ok (negb (contains c wavelength)));
  if off_grid : bool then Raise no_exact_match else
  theta_o ← coord (data self) "theta_o";
  phi_o ← coord (data self) "phi_o";
  s ← sel (data self) "theta_i" theta_i;
  s ← sel s "phi_i" phi_i;
  s ← sel s "wavelength" wavelength;
  Ok (theta_o, phi_o, to_numpy s).

End Adapter.

(** *** Vocabulary of the statements *)

(** The by-name index [env] with [dim] sent to position [p]. *)
Definition upd (env : string -> nat) (dim : string) (p : nat) : string -> nat :=
  fun d => if decide (d = dim) then p else env d.

(** The by-name index of the cell at incoming zenith [p1], incoming
    azimuth [p2] and wavelength [p3]; the outgoing pair is read in [env]. *)
Definition at_incoming (p1 p2 p3 : nat) (env : string -> nat) : string -> nat :=
  upd (upd (upd env "wavelength" p3) "phi_i" p2) "theta_i" p1.

(** Dimension [a] is stored before dimension [b]. *)
Definition precedes (a b : string) (ds : list string) : Prop :=
  exists l1 l2 l3 : list string, ds = (l1 ++ a :: l2 ++ b :: l3)%list.

(** The array has exactly the five named axes, in any storage order. *)
Definition five_dimensional {A : Type} (d : DataArray A) : Prop :=
  dims d ≡ₚ required_dims.

(** The axes that remain after the three incoming selections. *)
Definition outgoing (ds : list string) : list string :=
  filter (fun d => d <> "wavelength")
    (filter (fun d => d <> "phi_i") (filter (fun d => d <> "theta_i") ds)).

(** The by-name index [env] designates a cell of [d]. *)
Definition in_grid {A : Type} (d : DataArray A) (env : string -> nat) : Prop :=
  Forall (fun ax => (env ax.1 < length ax.2)%nat) (axes d).

(** Every axis is a grid: no coordinate label occurs twice. *)
Definition unique_labels {A : Type} (d : DataArray A) : Prop :=
  Forall (fun ax => NoDup ax.2) (axes d).

End BrdfViewer.

(** ** [eradiate.util.brdf_viewer]: the views *)

Module BrdfView.

Import BrdfViewer.

(** [np.where(c == label)]: the positions that hold [label]. *)
Fixpoint where_eq (c : list Z) (label : Z) (i : nat) : list nat :=
  match c with
  | [] => []
  | x :: c' =>
      if x =? label then i :: where_eq c' label (S i) else where_eq c' label (S i)
  end.

(** [z[k::-1]]: from position [k] down to the start; a negative [k]
    counts from the end. *)
Definition slice_down {A : Type} (z : list A) (k : Z) : list A :=
  let len := Z.of_nat (length z) in
  rev (take (Z.to_nat (if k <? 0 then len + k + 1 else k + 1)) z).

(** [z[k:]] for [0 <= k]. *)
Definition slice_from {A : Type} (z : list A) (k : Z) : list A :=
  drop (Z.to_nat k) z.

(** Outcomes of the arithmetic of the resolution properties, which
    can also raise [ZeroDivisionError]. *)
Inductive py_exn : Type :=
| Std (e : exn)
| ZeroDivisionError (msg : string).

Inductive pyresult (A : Type) : Type :=
| Returned (a : A)
| Thrown (e : py_exn).
Arguments Returned {A} a.
Arguments Thrown {A} e.

Section Views.

(** Cell values, as in the adapter. *)
Variable V : Type.
Variable zero : V.

(** Angles in radians are floating-point numbers; [deg2rad] is numpy's,
    [angle_zero] and [angle_pi] are the [0] and [np.pi] of the outgoing
    directions. *)
Variable angle : Type.
Variable deg2rad : Z -> angle.
Variable angle_zero : angle.
Variable angle_pi : angle.

(** [np.linspace(start, stop, num)] for [0 <= num]. *)
Variable linspace : angle -> angle -> nat -> list angle.
Variable angle_two_pi : angle.
Variable angle_half_pi : angle.

(** Floating-point quotients.  [ceil_quotient span res] is
    [int(np.ceil(span / float(res)))] and [true_div a b] is Python's
    [a / b] on integers, both for a non-zero divisor; [float_of_int] is
    the float that an integer converts to. *)
Variable float : Type.
Variable float_of_int : Z -> float.
Variable ceil_quotient : Z -> Z -> Z.
Variable true_div : Z -> Z -> float.

(** The kernel's BSDF plugins and
    [MitsubaBSDFPluginAdapter.evaluate(wo, wi, wavelength)], which
    calls into the kernel. *)
Variable BSDF : Type.
Variable bsdf_evaluate : BSDF -> angle * angle -> list Z -> Z -> result V.

(** The two adapters behind [BRDFView.brdf]. *)
Inductive brdf_adapter : Type :=
| Sampled (bsdf : BSDF)
| Gridded (a : adapter V).

Definition adapter_flag (b : brdf_adapter) : Z :=
  match b with
  | Sampled _ => FLAG_SAMPLED_ADAPTER
  | Gridded a => flag V a
  end.

(** What the [brdf] setter may be handed. *)
Inductive brdf_source : Type :=
| SourceBSDF (bsdf : BSDF)
| SourceDataArray (d : DataArray V)
| SourceStr (s : string)
| SourceObject (type_repr : string).

(** The attributes of a view; [Zt] is what the subclass keeps in [_z].
    [_brdf] and [_z] are unset until assigned. *)
Record BRDFView (Zt : Type) : Type := mk_view {
  _brdf : option brdf_adapter;
  _wi : list Z;
  _azm : list angle;
  _zen : list angle;
  _wavelength : Z;
  _z : option Zt
}.
Arguments mk_view {Zt}.
Arguments _brdf {Zt}.
Arguments _wi {Zt}.
Arguments _azm {Zt}.
Arguments _zen {Zt}.
Arguments _wavelength {Zt}.
Arguments _z {Zt}.

Definition set_brdf {Zt} (self : BRDFView Zt) (b : brdf_adapter) : BRDFView Zt :=
  mk_view (Some b) (_wi self) (_azm self) (_zen self) (_wavelength self) (_z self).
Definition set_zen {Zt} (self : BRDFView Zt) (zen : list angle) : BRDFView Zt :=
  mk_view (_brdf self) (_wi self) (_azm self) zen (_wavelength self) (_z self).
Definition set_z {Zt} (self : BRDFView Zt) (z : Zt) : BRDFView Zt :=
  mk_view (_brdf self) (_wi self) (_azm self) (_zen self) (_wavelength self) (Some z).

Definition view_attribute_error (cls name : string) : exn :=
  AttributeError ("'" ++ cls ++ "' object has no attribute '" ++ name ++ "'").

(** [BRDFView.brdf], the setter: the source is wrapped before it is
    stored, so a failing wrap leaves the view as it was. *)
Definition brdf_setter {Zt} (self : BRDFView Zt) (source : brdf_source)
  : BRDFView Zt * result unit :=
  match source with
  | SourceBSDF bsdf => (set_brdf self (Sampled bsdf), Ok tt)
  | SourceDataArray d =>
      match DataArrayBRDFAdapter V zero (PyDataArray V d) with
      | Ok a => (set_brdf self (Gridded a), Ok tt)
      | Raise e => (self, Raise e)
      end
  | SourceStr _ =>
      (self, Raise (TypeError "Loading BRDF data files is not supported yet."))
  | SourceObject type_repr =>
      (self, Raise (TypeError ("Non supported BRDF source type: " ++ type_repr)))
  end.

(** [theta_i, phi_i = wi] *)
Definition unpack_wi (wi : list Z) : result (Z * Z) :=
  match wi with
  | [theta_i; phi_i] => Ok (theta_i, phi_i)
  | [] => Raise (ValueError "not enough values to unpack (expected 2, got 0)")
  | [_] => Raise (ValueError "not enough values to unpack (expected 2, got 1)")
  | _ => Raise (ValueError "too many values to unpack (expected 2)")
  end.

(** *** Resolution properties of [BRDFView] *)

Definition set_azm {Zt} (self : BRDFView Zt) (azm : list angle) : BRDFView Zt :=
  mk_view (_brdf self) (_wi self) azm (_zen self) (_wavelength self) (_z self).

Definition np_linspace (start stop : angle) (num : Z) : pyresult (list angle) :=
  if num <? 0 then
    Thrown (Std (ValueError ("Number of samples, " ++ pretty num
                               ++ ", must be non-negative.")))
  else Returned (linspace start stop (Z.to_nat num)).

(** [int(np.ceil(span / float(res)))] *)
Definition resolution_steps (span res : Z) : pyresult Z :=
  if res =? 0 then Thrown (ZeroDivisionError "float division by zero")
  else Returned (ceil_quotient span res).

(** [360 / (len(angles) - 1)] *)
Definition resolution_of (angles : list angle) : pyresult float :=
  let n := Z.of_nat (length angles) - 1 in
  if n =? 0 then Thrown (ZeroDivisionError "division by zero")
  else Returned (true_div 360 n).

(** [azm_steps], the setter *)
Definition azm_steps_setter {Zt} (self : BRDFView Zt) (steps : Z)
  : BRDFView Zt * pyresult unit :=
  match np_linspace angle_zero angle_two_pi steps with
  | Returned azm => (set_azm self azm, Returned tt)
  | Thrown e => (self, Thrown e)
  end.

(** [azm_res], the getter and the setter *)
Definition azm_res {Zt} (self : BRDFView Zt) : pyresult float :=
  resolution_of (_azm self).

Definition azm_res_setter {Zt} (self : BRDFView Zt) (res : Z)
  : BRDFView Zt * pyresult unit :=
  match resolution_steps 360 res with
  | Returned steps => azm_steps_setter self (steps + 1)
  | Thrown e => (self, Thrown e)
  end.

(** [zen_steps], the setter *)
Definition zen_steps_setter {Zt} (self : BRDFView Zt) (steps : Z)
  : BRDFView Zt * pyresult unit :=
  match np_linspace angle_zero angle_half_pi steps with
  | Returned zen => (set_zen self zen, Returned tt)
  | Thrown e => (self, Thrown e)
  end.

(** [zen_res], the getter and the setter *)
Definition zen_res {Zt} (self : BRDFView Zt) : pyresult float :=
  resolution_of (_zen self).

Definition zen_res_setter {Zt} (self : BRDFView Zt) (res : Z)
  : BRDFView Zt * pyresult unit :=
  match resolution_steps 90 res with
  | Returned steps => zen_steps_setter self (steps + 1)
  | Thrown e => (self, Thrown e)
  end.

(** *** [PrincipalPlaneView] *)

Definition needs_180 : exn :=
  ValueError "The principal plane view requires values at phi=180°!".

(** [np.squeeze(data[:, pos])] with [pos] the tuple that [np.where]
    returns.  The index array has shape (1, m), so the selection has
    shape (n0, 1, m, ...); squeezing drops the axes of size 1.  The
    result is what is assigned into a stretch of [n] cells of [_z]: a
    0-d value fills the stretch, a 1-d value of length [n] is copied. *)
Definition squeezed_column (data : ndarray V) (pos : list nat) (n : nat)
  : result (list V) :=
  match shape data with
  | n0 :: n1 :: rest =>
      if forallb (fun k => (k <? n1)%nat) pos then
        let full := n0 :: 1%nat :: length pos :: rest in
        let cell (t : nat) :=
          match (fun s => if (s =? 1)%nat then O else t) <$> full with
          | i :: _ :: j :: r => item data (i :: nth j pos O :: r)
          | _ => zero
          end in
        match filter (fun s => s <> 1%nat) full with
        | [] => Ok (replicate n (cell O))
        | [len] =>
            if decide (len = n) then Ok (cell <$> seq 0 n)
            else Raise (ValueError "could not broadcast input array")
        | _ => Raise (ValueError "could not broadcast input array")
        end
      else Raise (IndexError "index out of bounds")
  | _ => Raise (IndexError "too many indices for array")
  end.

(** The loops of the sampled branch: [z[offset(i)] = evaluate(wo(i))]
    for [i] in [range(n)], stopping at the first evaluation that raises. *)
Fixpoint sample_loop (ev : angle * angle -> result V) (phi : angle)
    (place : nat -> nat) (zen : list angle) (i : nat) (z : list V)
  : list V * result unit :=
  match zen with
  | [] => (z, Ok tt)
  | theta :: zen' =>
      match ev (theta, phi) with
      | Ok v => sample_loop ev phi place zen' (S i) (<[place i := v]> z)
      | Raise e => (z, Raise e)
      end
  end.

Definition PrincipalPlaneView := BRDFView (list V).

Definition principal_evaluate (self : PrincipalPlaneView)
  : PrincipalPlaneView * result unit :=
  (* self._z = np.zeros(np.shape(self.zen)[0] * 2) *)
  let n := length (_zen self) in
  let self := set_z self (replicate (n * 2) zero) in
  match _brdf self with
  | None => (self, Raise (view_attribute_error "PrincipalPlaneView" "_brdf"))
  | Some brdf =>
      if adapter_flag brdf =? FLAG_GRIDDED_ADAPTER then
        match brdf with
        | Sampled _ =>
            (self, Raise (view_attribute_error "MitsubaBSDFPluginAdapter"
                            "plotting_data"))
        | Gridded a =>
            match (wi ← unpack_wi (_wi self);
                   plotting_data V a wi (_wavelength self)) with
            | Raise e => (self, Raise e)
            | Ok (thetas, phis, data) =>
                if negb (contains phis 180) then (self, Raise needs_180) else
                let self := set_zen self (deg2rad <$> thetas) in
                let n := length (_zen self) in
                let self := set_z self (replicate (n * 2) zero) in
                let phi_zero := where_eq phis 0 0 in
                let phi_oneeighty := where_eq phis 180 0 in
                (* self._z[n:] = np.squeeze(data[:, phi_zero]) *)
                match squeezed_column data phi_zero n with
                | Raise e => (self, Raise e)
                | Ok upper =>
                    let self := set_z self (replicate n zero ++ upper)%list in
                    (* self._z[:n] = np.squeeze(data[:, phi_oneeighty]) *)
                    match squeezed_column data phi_oneeighty n with
                    | Raise e => (self, Raise e)
                    | Ok lower => (set_z self (lower ++ upper)%list, Ok tt)
                    end
                end
            end
        end
      else if adapter_flag brdf =? FLAG_SAMPLED_ADAPTER then
        match brdf with
        | Gridded _ =>
            (self,
             match _zen self with
             | [] => Ok tt
             | _ :: _ =>
                 Raise (view_attribute_error "DataArrayBRDFAdapter" "evaluate")
             end)
        | Sampled bsdf =>
            let ev wo := bsdf_evaluate bsdf wo (_wi self) (_wavelength self) in
            let zen := _zen self in
            (* phi=0 goes in the second half of the array *)
            match sample_loop ev angle_zero (fun i => (i + n)%nat) zen 0
                    (replicate (n * 2) zero) with
            | (z, Raise e) => (set_z self z, Raise e)
            | (z, Ok _) =>
                (* phi=pi goes in the first half of the array, but reversed *)
                match sample_loop ev angle_pi (fun i => (n - (i + 1))%nat) zen 0 z with
                | (z, r) => (set_z self z, r)
                end
            end
        end
      else (self, Ok tt)
  end.

(** What [to_xarray] returns: an array of dimensions ("phi", "theta"). *)
Record plane_array : Type := mk_plane_array {
  phi_coord : list angle;
  theta_coord : list angle;
  rows : list (list V)
}.

Definition conflicting_sizes : exn :=
  ValueError "conflicting sizes for dimension 'theta'".

Definition principal_to_xarray (self : PrincipalPlaneView) : result plane_array :=
  match _z self with
  | None => Raise (view_attribute_error "PrincipalPlaneView" "_z")
  | Some z =>
      let len := Z.of_nat (length z) in
      (* halflength = len(self._z) / 2.0; halflength % 1 == 0 *)
      let data :=
        if len mod 2 =? 0
        then [slice_down z (len / 2 - 1); slice_from z (len / 2)]
        else [slice_down z (len / 2); slice_from z (len / 2)] in
      if forallb (fun row => (length row =? length (_zen self))%nat) data
      then Ok (mk_plane_array [angle_pi; angle_zero] (_zen self) data)
      else Raise conflicting_sizes
  end.

(** *** [PolarView] *)

(** [np.meshgrid(zen, azm)]: two arrays of shape (len azm, len zen). *)
Definition meshgrid (zen azm : list angle)
  : list (list angle) * list (list angle) :=
  ((fun _ => zen) <$> azm, (fun phi => (fun _ => phi) <$> zen) <$> azm).

(** [np.transpose(data)]: the axes in reverse order. *)
Definition transpose (data : ndarray V) : ndarray V :=
  mk_ndarray (rev (shape data)) (fun idx => item data (rev idx)).

(** [z[i][j] = val] *)
Definition set_cell (z : ndarray V) (idx : list nat) (val : V) : ndarray V :=
  mk_ndarray (shape z) (fun idx' => if decide (idx' = idx) then val else item z idx').

(** A polar view: the attributes of [BRDFView] and the mesh [r], [th]
    that [evaluate] attaches. *)
Record PolarView : Type := mk_polar {
  polar_view : BRDFView (ndarray V);
  r : option (list (list angle));
  th : option (list (list angle))
}.

(** The inner and the outer loop of the sampled branch. *)
Fixpoint polar_row (ev : angle * angle -> result V) (phi : angle) (i : nat)
    (zen : list angle) (j : nat) (z : ndarray V) : ndarray V * result unit :=
  match zen with
  | [] => (z, Ok tt)
  | theta :: zen' =>
      match ev (theta, phi) with
      | Ok val => polar_row ev phi i zen' (S j) (set_cell z [i; j] val)
      | Raise e => (z, Raise e)
      end
  end.

Fixpoint polar_rows (ev : angle * angle -> result V) (azm : list angle) (i : nat)
    (zen : list angle) (z : ndarray V) : ndarray V * result unit :=
  match azm with
  | [] => (z, Ok tt)
  | phi :: azm' =>
      match polar_row ev phi i zen 0 z with
      | (z, Ok _) => polar_rows ev azm' (S i) zen z
      | (z, Raise e) => (z, Raise e)
      end
  end.

Definition unsupported_adapter : exn :=
  TypeError "Unsupported adapter <class 'eradiate.util.brdf_viewer.DataArrayBRDFAdapter'>!".

Definition polar_evaluate (self : PolarView) : PolarView * result unit :=
  let view := polar_view self in
  match _brdf view with
  | None => (self, Raise (view_attribute_error "PolarView" "_brdf"))
  | Some brdf =>
      if adapter_flag brdf =? FLAG_GRIDDED_ADAPTER then
        match brdf with
        | Sampled _ =>
            (self, Raise (view_attribute_error "MitsubaBSDFPluginAdapter"
                            "plotting_data"))
        | Gridded a =>
            match (wi ← unpack_wi (_wi view);
                   plotting_data V a wi (_wavelength view)) with
            | Raise e => (self, Raise e)
            | Ok (thetas, phis, data) =>
                let zen := deg2rad <$> thetas in
                let azm := deg2rad <$> phis in
                let view := set_z (set_azm (set_zen view zen) azm) (transpose data) in
                let '(r, th) := meshgrid zen azm in
                (mk_polar view (Some r) (Some th), Ok tt)
            end
        end
      else if adapter_flag brdf =? FLAG_SAMPLED_ADAPTER then
        match brdf with
        | Gridded _ =>
            let '(r, th) := meshgrid (_zen view) (_azm view) in
            let z := mk_ndarray [length (_azm view); length (_zen view)]
                       (fun _ => zero) in
            (mk_polar (set_z view z) (Some r) (Some th),
             match _azm view, _zen view with
             | _ :: _, _ :: _ =>
                 Raise (view_attribute_error "DataArrayBRDFAdapter" "evaluate")
             | _, _ => Ok tt
             end)
        | Sampled bsdf =>
            let '(r, th) := meshgrid (_zen view) (_azm view) in
            let z := mk_ndarray [length (_azm view); length (_zen view)]
                       (fun _ => zero) in
            let ev wo := bsdf_evaluate bsdf wo (_wi view) (_wavelength view) in
            match polar_rows ev (_azm view) 0 (_zen view) z with
            | (z, outcome) => (mk_polar (set_z view z) (Some r) (Some th), outcome)
            end
        end
      else (self, Raise unsupported_adapter)
  end.

(** What [PolarView.to_xarray] returns: dimensions ("phi", "theta"). *)
Record polar_array : Type := mk_polar_array {
  polar_phi : list angle;
  polar_theta : list angle;
  polar_cells : ndarray V
}.

Definition polar_to_xarray (self : PolarView) : result polar_array :=
  let view := polar_view self in
  match _z view with
  | None => Raise (view_attribute_error "PolarView" "_z")
  | Some z =>
      match shape z with
      | [n_phi; n_theta] =>
          if decide (n_phi = length (_azm view) /\ n_theta = length (_zen view))
          then Ok (mk_polar_array (_azm view) (_zen view) z)
          else Raise (ValueError "conflicting sizes for dimension")
      | _ =>
          Raise (ValueError
                   "different number of dimensions on data and dims")
      end
  end.

End Views.

Arguments Sampled {V BSDF} bsdf.
Arguments Gridded {V BSDF} a.
Arguments mk_view {V angle BSDF Zt}.
Arguments _brdf {V angle BSDF Zt} b.
Arguments _wi {V angle BSDF Zt} b.
Arguments _azm {V angle BSDF Zt} b.
Arguments _zen {V angle BSDF Zt} b.
Arguments _wavelength {V angle BSDF Zt} b.
Arguments _z {V angle BSDF Zt} b.
Arguments set_brdf {V angle BSDF Zt} self b.
Arguments set_zen {V angle BSDF Zt} self zen.
Arguments set_azm {V angle BSDF Zt} self azm.
Arguments set_z {V angle BSDF Zt} self z.
Arguments mk_plane_array {V angle}.
Arguments phi_coord {V angle} p.
Arguments theta_coord {V angle} p.
Arguments rows {V angle} p.
Arguments mk_polar {V angle BSDF}.
Arguments polar_view {V angle BSDF} p.
Arguments r {V angle BSDF} p.
Arguments th {V angle BSDF} p.
Arguments mk_polar_array {V angle}.
Arguments polar_phi {V angle} p.
Arguments polar_theta {V angle} p.
Arguments polar_cells {V angle} p.
Arguments transpose {V} data.

(** *** Vocabulary of the statements *)



End BrdfView.

(** ** Sample inputs *)

Module Samples.

Import BrdfViewer.

(** A getter over a one-entry catalogue. *)
Definition thuillier_getter : Data.Getter Z :=
  Data.mkGetter Z
    (fun id => if decide (id = "thuillier_2003") then Ok 2003
               else Raise (ValueError ("unknown identifier " ++ id)))
    (Ok ["thuillier_2003"])
    (Ok {[ "thuillier_2003" := true ]}).

Definition empty_getter : Data.Getter Z :=
  Data.mkGetter Z (fun id => Raise (ValueError ("unknown identifier " ++ id)))
    (Ok []) (Ok ∅).

(** A resolver that finds every path where it is, and a loader that
    reads the length of the name as the data set. *)
Definition resolve_here (path : string) : result string := Ok path.
Definition load_length (fname : string) : result Z :=
  Ok (Z.of_nat (String.length fname)).

(** Cells that record their own position. *)
Definition cell_code (idx : list nat) : Z :=
  fold_left (fun acc i => acc * 10 + Z.of_nat i + 1) idx 0.

Definition grid (phi_o : list Z) : DataArray Z :=
  mkDataArray
    [("theta_i", [0; 30]); ("phi_i", [0]); ("theta_o", [0; 45]);
     ("phi_o", phi_o); ("wavelength", [550])]
    cell_code.

Definition grid_missing_360 : DataArray Z := grid [0; 90; 180; 270].
Definition grid_missing_0 : DataArray Z := grid [90; 180; 270; 360].
Definition grid_no_boundary : DataArray Z := grid [10; 90; 180].
Definition grid_complete : DataArray Z := grid [0; 90; 180; 270; 360].

(** The same axes with [phi_o] stored before [theta_o]. *)
Definition grid_transposed : DataArray Z :=
  mkDataArray
    [("theta_i", [0; 30]); ("phi_i", [0]); ("phi_o", [0; 180; 360]);
     ("theta_o", [0; 45]); ("wavelength", [550])]
    cell_code.

(** An array without a [theta_o] axis. *)
Definition grid_without_theta_o : DataArray Z :=
  mkDataArray
    [("theta_i", [0; 30]); ("phi_i", [0]); ("phi_o", [0; 360]);
     ("wavelength", [550])]
    cell_code.

(** The instances that construction yields on the complete arrays. *)
Definition adapter_complete : adapter Z :=
  mk_adapter Z grid_complete FLAG_GRIDDED_ADAPTER.

Definition adapter_transposed : adapter Z :=
  mk_adapter Z grid_transposed FLAG_GRIDDED_ADAPTER.

End Samples.

(** ** Sample views *)

Module ViewSamples.

Import BrdfViewer BrdfView Samples.

(** Angles in milliradians stand in for the floats. *)
Definition millirad (degrees : Z) : Z := degrees * 17453 / 1000.

(** A kernel whose BSDF value is the sum of the outgoing angles. *)
Definition sum_of_angles (bsdf : unit) (wo : Z * Z) (wi : list Z)
    (wavelength : Z) : result Z :=
  Ok (fst wo + snd wo).

Definition view_on {Zt : Type} (brdf : brdf_adapter Z unit)
  : BRDFView Z Z unit Zt :=
  mk_view (Some brdf) [30; 0] [0; 3142; 6283] [0; 785; 1571] 550 None.

Definition gridded_view : PrincipalPlaneView Z Z unit :=
  view_on (Gridded adapter_complete).

Definition sampled_view : PrincipalPlaneView Z Z unit :=
  view_on (Sampled tt).

(** A complete grid that has no [phi_o] = 180. *)
Definition adapter_no_180 : adapter Z :=
  mk_adapter Z (grid [0; 90; 270; 360]) FLAG_GRIDDED_ADAPTER.

Definition no_180_view : PrincipalPlaneView Z Z unit :=
  view_on (Gridded adapter_no_180).



(** Evenly spaced samples, and exact integer quotients. *)
Definition even_steps (start stop : Z) (n : nat) : list Z :=
  (fun i => start + (stop - start) * Z.of_nat i / Z.max 1 (Z.of_nat n - 1))
    <$> seq 0 n.

Definition ceil_div (span res : Z) : Z := - ((- span) / res).

End ViewSamples.

(** * Properties of the resolver *)

Section ResolverFacts.

Context {Dataset : Type}.
Variables absorption solar : Data.Getter Dataset.
Variable resolve : string -> result string.
Variable open_dataset : string -> result Dataset.

Local Abbreviation getters := (Data._getters Dataset absorption solar).
Local Abbreviation open := (Data.open Dataset absorption solar resolve open_dataset).
Local Abbreviation registered := (Data.registered Dataset absorption solar).
Local Abbreviation find := (Data.find Dataset absorption solar).

Lemma getters_lookup (category : string) :
  getters !! category =
    if decide (category = "absorption_spectrum") then Some absorption
    else if decide (category = "solar_irradiance_spectrum") then Some solar
    else None.
Proof.
  unfold Data._getters.
  repeat case_decide; subst; simplify_map_eq; reflexivity.
Qed.

(** C4: for a category that the registry does not hold, [open] with a
    category and an id, [registered] and [find] each raise the
    [ValueError] "invalid data category" that names the category. *)
Theorem unknown_category_fails (category id : string) :
  getters !! category = None ->
  open (Some category) (Some id) None = Raise (Data.invalid_category category)
  /\ registered category = Raise (Data.invalid_category category)
  /\ find category = Raise (Data.invalid_category category).
Proof.
  intros Hnone. unfold Data.open, Data.registered, Data.find.
  rewrite Hnone. auto.
Qed.

(** C5: for a registered category, [open] is the getter's [open]: a
    failure of the getter reaches the caller unchanged, and a success
    is returned as it is. *)
Theorem open_delegates_to_getter (category id : string)
    (getter : Data.Getter Dataset) :
  getters !! category = Some getter ->
  open (Some category) (Some id) None = Data.getter_open Dataset getter id
  /\ (forall e, Data.getter_open Dataset getter id = Raise e ->
                open (Some category) (Some id) None = Raise e)
  /\ (forall ds, Data.getter_open Dataset getter id = Ok ds ->
                 open (Some category) (Some id) None = Ok ds).
Proof.
  intros Hsome. unfold Data.open. rewrite Hsome.
  destruct (Data.getter_open Dataset getter id) as [ds|e] eqn:Hg;
    repeat split; intros; congruence.
Qed.

(** C6: on a path that resolves to [fname], [open] loads [fname] when
    its extension is ".nc", so it returns the loaded data set whenever
    the load succeeds; with any other extension it raises the
    [ValueError] "cannot load resource" that names [fname]. *)
Theorem open_path_by_extension (category id : option string)
    (path fname : string) :
  resolve path = Ok fname ->
  (snd (OsPath.splitext fname) = ".nc" ->
     open category id (Some path) = open_dataset fname
     /\ forall ds, open_dataset fname = Ok ds ->
                   open category id (Some path) = Ok ds)
  /\ (snd (OsPath.splitext fname) <> ".nc" ->
        open category id (Some path) = Raise (Data.cannot_load fname)).
Proof.
  intros Hres. unfold Data.open. rewrite Hres. cbn.
  split.
  - intros Hext. rewrite Hext. cbn. split; [reflexivity | auto].
  - intros Hext. apply String.eqb_neq in Hext. rewrite Hext. reflexivity.
Qed.

(** C7: without a path, a missing category or a missing id makes
    [open] raise; with a path, the outcome does not depend on the
    category and the id. *)
Theorem open_needs_arguments_and_prefers_path :
  (forall id, open None id None = Raise Data.missing_arguments)
  /\ (forall category, open category None None = Raise Data.missing_arguments)
  /\ (forall path category id category' id',
        open category id (Some path) = open category' id' (Some path)).
Proof.
  split; [reflexivity |].
  split; [intros [category|]; reflexivity |].
  reflexivity.
Qed.

End ResolverFacts.

(** * Properties of the gridded adapter *)

Import BrdfViewer.

Lemma contains_elem_of (c : list Z) (key : Z) :
  contains c key = true <-> key ∈ c.
Proof.
  unfold contains. rewrite existsb_exists. split.
  - intros (x & Hin & Heq). apply Z.eqb_eq in Heq. subst.
    apply list_elem_of_In. exact Hin.
  - intros Hin. exists key. split; [apply list_elem_of_In; exact Hin | apply Z.eqb_refl].
Qed.

Lemma contains_not_elem_of (c : list Z) (key : Z) :
  contains c key = false <-> key ∉ c.
Proof.
  rewrite <- contains_elem_of. destruct (contains c key); split; congruence.
Qed.

(** *** Lists of axes *)

Lemma index_of_lookup (dim : string) (ds : list string) (k : nat) :
  index_of dim ds = Some k -> ds !! k = Some dim.
Proof.
  revert k. induction ds as [|d ds IH]; intros k; cbn; [discriminate |].
  case_decide as Hd.
  - intros [= <-]. subst. reflexivity.
  - destruct (index_of dim ds) as [k'|]; [| discriminate].
    intros [= <-]. cbn. apply IH. reflexivity.
Qed.

Lemma index_of_elem (dim : string) (ds : list string) :
  dim ∈ ds -> exists k, index_of dim ds = Some k.
Proof.
  induction ds as [|d ds IH]; intros Hin; [inversion Hin |].
  cbn. case_decide as Hd; [eauto |].
  apply elem_of_cons in Hin as [->|Hin]; [contradiction |].
  destruct (IH Hin) as [k ->]. eauto.
Qed.

Lemma lookup_axis_elem (dim : string) (l : list (string * list Z)) :
  dim ∈ l.*1 -> exists c, lookup_axis dim l = Some c.
Proof.
  induction l as [|[d c] l IH]; intros Hin; [inversion Hin |].
  cbn. case_decide as Hd; [eauto |].
  cbn in Hin. apply elem_of_cons in Hin as [->|Hin]; [contradiction | auto].
Qed.

Lemma lookup_axis_filter (dim x : string) (l : list (string * list Z)) :
  dim <> x ->
  lookup_axis dim (filter (fun ax => ax.1 <> x) l) = lookup_axis dim l.
Proof.
  intros Hne. induction l as [|[d c] l IH]; [reflexivity |].
  rewrite filter_cons. cbn. repeat case_decide; subst; cbn; try congruence.
  - case_decide; congruence.
  - case_decide; congruence.
Qed.

Lemma dims_filter (x : string) (l : list (string * list Z)) :
  (filter (fun ax => ax.1 <> x) l).*1 = filter (fun d => d <> x) l.*1.
Proof.
  induction l as [|[d c] l IH]; [reflexivity |].
  rewrite fmap_cons, !filter_cons. cbn [fst].
  case_decide; rewrite ?fmap_cons; cbn [fst]; congruence.
Qed.

Lemma filter_absent (dim : string) (l : list (string * list Z)) :
  dim ∉ l.*1 -> filter (fun ax => ax.1 <> dim) l = l.
Proof.
  induction l as [|[d c] l IH]; intros Hout; [reflexivity |].
  rewrite fmap_cons in Hout. cbn [fst] in Hout.
  apply not_elem_of_cons in Hout as [Hne Hout].
  rewrite filter_cons_True by (cbn; congruence).
  f_equal. auto.
Qed.

Lemma delete_index_filter (dim : string) (l : list (string * list Z)) (k : nat) :
  NoDup l.*1 -> index_of dim l.*1 = Some k ->
  delete k l = filter (fun ax => ax.1 <> dim) l.
Proof.
  revert k. induction l as [|[d c] l IH]; intros k Hnd Hk; [discriminate |].
  rewrite fmap_cons in Hnd, Hk. cbn [fst] in Hnd, Hk.
  apply NoDup_cons in Hnd as [Hd Hnd].
  cbn [index_of] in Hk. case_decide as Hdd.
  - injection Hk as <-. subst d.
    rewrite filter_cons_False by (cbn; tauto).
    rewrite filter_absent by exact Hd. reflexivity.
  - destruct (index_of dim l.*1) as [k'|] eqn:Hk'; [| discriminate].
    injection Hk as <-.
    rewrite filter_cons_True by (cbn; congruence).
    cbn [delete list_delete]. f_equal. auto.
Qed.

Lemma map_upd_absent (env : string -> nat) (dim : string) (p : nat)
    (ds : list string) :
  dim ∉ ds -> upd env dim p <$> ds = env <$> ds.
Proof.
  intros Hout. apply list_fmap_ext. intros i x Hx. unfold upd.
  case_decide; [| reflexivity]. subst. exfalso. apply Hout.
  eapply list_elem_of_lookup_2; eauto.
Qed.

Lemma map_upd_delete (env : string -> nat) (dim : string) (p : nat)
    (ds : list string) (k : nat) :
  NoDup ds -> index_of dim ds = Some k ->
  (take k (env <$> delete k ds) ++ p :: drop k (env <$> delete k ds))%list
  = upd env dim p <$> ds.
Proof.
  revert k. induction ds as [|d ds IH]; intros k Hnd Hk; [discriminate |].
  apply NoDup_cons in Hnd as [Hd Hnd].
  cbn [index_of] in Hk. rewrite fmap_cons. unfold upd at 1.
  case_decide as Hdd.
  - injection Hk as <-. subst d.
    rewrite map_upd_absent by exact Hd. reflexivity.
  - destruct (index_of dim ds) as [k'|] eqn:Hk'; [| discriminate].
    injection Hk as <-.
    cbn [delete list_delete]. rewrite fmap_cons. cbn [take drop app].
    f_equal. apply IH; auto.
Qed.

Lemma get_loc_contains (c : list Z) (label : Z) :
  contains c label = true -> exists p, get_loc c label = Some p.
Proof.
  induction c as [|x c IH]; cbn; [discriminate |].
  destruct (x =? label); [eauto |]. cbn. intros H.
  destruct (IH H) as [p ->]. eauto.
Qed.

Lemma get_loc_unique (c : list Z) (label : Z) (p : nat) :
  NoDup c -> c !! p = Some label -> get_loc c label = Some p.
Proof.
  revert p. induction c as [|x c IH]; intros p Hnd Hp; [discriminate |].
  apply NoDup_cons in Hnd as [Hx Hnd]. cbn.
  destruct p as [|p]; cbn in Hp.
  - injection Hp as ->. rewrite Z.eqb_refl. reflexivity.
  - destruct (Z.eqb_spec x label) as [->|Hne].
    + exfalso. apply Hx. eapply list_elem_of_lookup_2; eauto.
    + rewrite (IH p Hnd Hp). reflexivity.
Qed.

Lemma lookup_axis_dims (dim : string) (l : list (string * list Z)) (c : list Z) :
  lookup_axis dim l = Some c -> dim ∈ l.*1.
Proof.
  induction l as [|[d c0] l IH]; cbn; [discriminate |].
  case_decide as Hd; intros Hc; [subst; left | right; auto].
Qed.

Lemma coord_lookup {A : Type} (a : DataArray A) (dim : string) (c : list Z) :
  coord a dim = Ok c <-> lookup_axis dim (axes a) = Some c.
Proof.
  unfold coord. destruct (lookup_axis dim (axes a)); split; congruence.
Qed.

Lemma coord_of_dim {A : Type} (a : DataArray A) (dim : string) :
  dim ∈ dims a -> exists c, coord a dim = Ok c.
Proof.
  intros Hin. destruct (lookup_axis_elem dim (axes a) Hin) as [c Hc].
  exists c. apply coord_lookup. exact Hc.
Qed.

(** *** Exact-match selection *)

Lemma sel_spec {A : Type} (a : DataArray A) (dim : string) (c : list Z)
    (label : Z) (p : nat) :
  NoDup (dims a) -> lookup_axis dim (axes a) = Some c ->
  get_loc c label = Some p ->
  exists s, sel a dim label = Ok s
    /\ axes s = filter (fun ax => ax.1 <> dim) (axes a)
    /\ forall env, at_name s env = at_name a (upd env dim p).
Proof.
  intros Hnd Hc Hp.
  destruct (index_of_elem dim (dims a) (lookup_axis_dims _ _ _ Hc)) as [k Hk].
  unfold sel. rewrite Hk, Hc, Hp. eexists. split; [reflexivity |]. split.
  - cbn. apply delete_index_filter; assumption.
  - intros env. unfold at_name, dims. cbn.
    rewrite list_fmap_delete. f_equal. apply map_upd_delete; assumption.
Qed.

Lemma sel_keeps_grid {A : Type} (a s : DataArray A) (dim : string) :
  NoDup (dims a) ->
  axes s = filter (fun ax => ax.1 <> dim) (axes a) ->
  NoDup (dims s)
  /\ dims s = filter (fun d => d <> dim) (dims a)
  /\ (forall other, other <> dim ->
        lookup_axis other (axes s) = lookup_axis other (axes a)).
Proof.
  intros Hnd Hs. unfold dims. rewrite Hs, dims_filter. repeat split.
  - apply NoDup_filter. exact Hnd.
  - intros other Hne. apply lookup_axis_filter. exact Hne.
Qed.

Lemma lookup_axis_elem_of (dim : string) (l : list (string * list Z)) (c : list Z) :
  lookup_axis dim l = Some c -> (dim, c) ∈ l.
Proof.
  induction l as [|[d c0] l IH]; cbn; [discriminate |].
  case_decide as Hd; intros Hc; [injection Hc as ->; subst; left | right; auto].
Qed.

Lemma unique_labels_coord {A : Type} (a : DataArray A) (dim : string) (c : list Z) :
  unique_labels a -> lookup_axis dim (axes a) = Some c -> NoDup c.
Proof.
  intros Huniq Hc. unfold unique_labels in Huniq. rewrite Forall_forall in Huniq.
  apply (Huniq (dim, c)). apply lookup_axis_elem_of. exact Hc.
Qed.

Lemma outgoing_in_order (ds : list string) :
  ds ≡ₚ required_dims -> precedes "theta_o" "phi_o" ds ->
  outgoing ds = ["theta_o"; "phi_o"].
Proof.
  intros Hperm (l1 & l2 & l3 & ->).
  assert (Hout : outgoing (l1 ++ "theta_o" :: l2 ++ "phi_o" :: l3)
                 ≡ₚ ["theta_o"; "phi_o"]).
  { unfold outgoing. rewrite Hperm. reflexivity. }
  assert (Hsplit : outgoing (l1 ++ "theta_o" :: l2 ++ "phi_o" :: l3)
                   = (outgoing l1 ++ "theta_o" :: outgoing l2
                        ++ "phi_o" :: outgoing l3)%list).
  { unfold outgoing.
    repeat (rewrite !filter_app || rewrite filter_cons_True by discriminate).
    reflexivity. }
  rewrite Hsplit in *.
  apply Permutation_length in Hout.
  rewrite !length_app in Hout. cbn in Hout. rewrite !length_app in Hout. cbn in Hout.
  destruct (outgoing l1), (outgoing l2), (outgoing l3); cbn in Hout; try lia.
  reflexivity.
Qed.

Section AdapterFacts.

Context {V : Type} (zero : V).

Local Abbreviation construct := (DataArrayBRDFAdapter V zero).
Local Abbreviation post_init := (__attrs_post_init__ V zero).

(** *** The validator *)

Lemma check_dims_ok (required ds : list string) :
  Forall (fun dim => dim ∈ ds) required -> check_dims required ds = Ok tt.
Proof.
  induction 1 as [|dim rest Hin _ IH]; cbn; [reflexivity |].
  case_decide; [contradiction | exact IH].
Qed.

Lemma check_dims_first_missing (required ds : list string) (dim : string) :
  dim ∈ required -> dim ∉ ds ->
  exists present first rest,
    required = (present ++ first :: rest)%list
    /\ Forall (fun dim => dim ∈ ds) present
    /\ (first ∉ ds)
    /\ check_dims required ds = Raise (missing_dimension first).
Proof.
  induction required as [|r required IH]; intros Hin Hout.
  - inversion Hin.
  - cbn. case_decide as Hr.
    + exists [], r, required. repeat split; auto.
    + assert (Hr' : r ∈ ds) by (destruct (decide (r ∈ ds)); tauto).
      assert (Hin' : dim ∈ required).
      { apply elem_of_cons in Hin as [->|Hin]; [contradiction | exact Hin]. }
      destruct (IH Hin' Hout) as (present & first & rest & -> & Hall & Hfirst & Hchk).
      exists (r :: present), first, rest. repeat split; auto.
Qed.

(** C8: an array that lacks one of the five required axes is rejected by
    the validator with the [ValueError] naming the first required axis,
    in the order of [required_dims], that the array does not have; the
    outcome of construction is that error, so the post-init step has not
    run. *)
Theorem missing_axis_fails (d : DataArray V) (dim : string) :
  dim ∈ required_dims -> dim ∉ dims d ->
  exists present first rest,
    required_dims = (present ++ first :: rest)%list
    /\ Forall (fun dim => dim ∈ dims d) present
    /\ (first ∉ dims d)
    /\ _check_data V (PyDataArray V d) = Raise (missing_dimension first)
    /\ construct (PyDataArray V d) = Raise (missing_dimension first).
Proof.
  intros Hin Hout.
  destruct (check_dims_first_missing required_dims (dims d) dim Hin Hout)
    as (present & first & rest & Hsplit & Hall & Hfirst & Hchk).
  exists present, first, rest. repeat split; auto.
  unfold DataArrayBRDFAdapter, _check_data. rewrite Hchk. reflexivity.
Qed.

(** *** The post-init step *)

Lemma call_copy_phi_o_values (self : DataArray V) (origin target : Z) :
  call_method V zero self "copy_phi_o_values" origin target
  = Raise (no_attribute "copy_phi_o_values").
Proof. reflexivity. Qed.

(** The branch that the post-init step takes, by presence of the two
    boundary values alone. *)
Lemma post_init_branches (self : DataArray V) (phi_o : list Z) :
  coord self "phi_o" = Ok phi_o ->
  post_init self =
    if negb (contains phi_o 0) then
      new_data ← call_method V zero self "copy_phi_o_values" 360 0;
      Ok (mk_adapter V new_data FLAG_GRIDDED_ADAPTER)
    else if negb (contains phi_o 360) then
      new_data ← call_method V zero self "copy_phi_o_values" 0 360;
      Ok (mk_adapter V new_data FLAG_GRIDDED_ADAPTER)
    else Ok (mk_adapter V self FLAG_GRIDDED_ADAPTER).
Proof.
  intros Hphi. unfold __attrs_post_init__. rewrite Hphi. cbn.
  destruct (contains phi_o 0), (contains phi_o 360); reflexivity.
Qed.

(** The [raise ValueError] of the third branch is never reached. *)
Lemma incomplete_boundary_unreachable (value : pyobj V) :
  construct value <> Raise incomplete_boundary.
Proof.
  unfold DataArrayBRDFAdapter, _check_data. destruct value as [d|ty].
  - destruct (check_dims required_dims (dims d)) as [[]|e] eqn:Hchk; cbn.
    + destruct (coord d "phi_o") as [phi_o|e] eqn:Hphi.
      * rewrite (post_init_branches d phi_o Hphi).
        rewrite !call_copy_phi_o_values.
        destruct (contains phi_o 0), (contains phi_o 360); cbn; discriminate.
      * unfold __attrs_post_init__. rewrite Hphi. cbn.
        unfold coord in Hphi. destruct (lookup_axis "phi_o" (axes d)); [discriminate|].
        injection Hphi as <-. discriminate.
    + revert Hchk. generalize required_dims. intros required.
      induction required as [|r required IH]; cbn; [discriminate |].
      case_decide; [| exact IH].
      intros [= <-]. unfold missing_dimension, incomplete_boundary.
      intros Heq. cbn in Heq. discriminate Heq.
  - discriminate.
Qed.

(** C10: an array with the five required axes whose [phi_o] coordinate
    holds both 0 and 360 is stored as it was supplied. *)
Theorem complete_boundary_keeps_array (d : DataArray V) (phi_o : list Z) :
  Forall (fun dim => dim ∈ dims d) required_dims ->
  coord d "phi_o" = Ok phi_o ->
  0 ∈ phi_o -> 360 ∈ phi_o ->
  construct (PyDataArray V d) = Ok (mk_adapter V d FLAG_GRIDDED_ADAPTER).
Proof.
  intros Hdims Hphi H0 H360.
  unfold DataArrayBRDFAdapter, _check_data.
  rewrite (check_dims_ok _ _ Hdims). cbn.
  rewrite (post_init_branches d phi_o Hphi).
  apply contains_elem_of in H0, H360. rewrite H0, H360. reflexivity.
Qed.

End AdapterFacts.

Section PlottingFacts.

Context {V : Type} (zero : V).

Local Abbreviation construct := (DataArrayBRDFAdapter V zero).

Lemma check_dims_inv (required ds : list string) :
  check_dims required ds = Ok tt -> Forall (fun dim => dim ∈ ds) required.
Proof.
  induction required as [|r required IH]; cbn; [constructor |].
  case_decide as Hr; [discriminate |].
  intros Hchk. constructor; [| auto].
  destruct (decide (r ∈ ds)); tauto.
Qed.

(** Construction succeeds only on an array that has the required axes
    and both boundary values, and then stores that array. *)
Lemma constructed_inv (value : pyobj V) (a : adapter V) :
  construct value = Ok a ->
  exists d phi_o,
    value = PyDataArray V d
    /\ a = mk_adapter V d FLAG_GRIDDED_ADAPTER
    /\ Forall (fun dim => dim ∈ dims d) required_dims
    /\ coord d "phi_o" = Ok phi_o
    /\ 0 ∈ phi_o /\ 360 ∈ phi_o.
Proof.
  unfold DataArrayBRDFAdapter, _check_data. destruct value as [d|ty]; [| discriminate].
  destruct (check_dims required_dims (dims d)) as [[]|e] eqn:Hchk; [| discriminate].
  apply check_dims_inv in Hchk. cbn.
  assert (Hphi : "phi_o" ∈ dims d).
  { rewrite Forall_forall in Hchk. apply Hchk. set_solver. }
  destruct (coord_of_dim d "phi_o" Hphi) as [phi_o Hc].
  rewrite (post_init_branches zero d phi_o Hc), !call_copy_phi_o_values.
  destruct (contains phi_o 0) eqn:H0; cbn; [| discriminate].
  destruct (contains phi_o 360) eqn:H360; cbn; [| discriminate].
  intros [= <-]. exists d, phi_o.
  apply contains_elem_of in H0, H360. auto 10.
Qed.

Lemma required_dims_NoDup : NoDup required_dims.
Proof. apply (bool_decide_unpack _). vm_compute. exact I. Qed.

(** C3 (as amended): on a constructed adapter, [plotting_data] raises
    the [ValueError] "Selected values don't align with data grid" when
    the incoming zenith, the incoming azimuth or the wavelength is not a
    coordinate of its axis.  When all three are, and the stored array has
    exactly the five axes with distinct labels and [theta_o] stored
    before [phi_o], it returns the [theta_o] coordinates, the [phi_o]
    coordinates and a slice of shape (len theta_o, len phi_o) whose cell
    (i, j) is the stored cell at the selected incoming direction and
    wavelength, outgoing zenith i and outgoing azimuth j. *)
Theorem plotting_data_exact_match (value : pyobj V) (a : adapter V)
    (theta_i phi_i wavelength : Z) (c1 c2 c3 : list Z) :
  construct value = Ok a ->
  coord (data V a) "theta_i" = Ok c1 ->
  coord (data V a) "phi_i" = Ok c2 ->
  coord (data V a) "wavelength" = Ok c3 ->
  (theta_i ∉ c1 \/ phi_i ∉ c2 \/ wavelength ∉ c3 ->
     plotting_data V a (theta_i, phi_i) wavelength = Raise no_exact_match)
  /\ (theta_i ∈ c1 -> phi_i ∈ c2 -> wavelength ∈ c3 ->
      five_dimensional (data V a) -> unique_labels (data V a) ->
      precedes "theta_o" "phi_o" (dims (data V a)) ->
      exists theta_o phi_o slice,
        plotting_data V a (theta_i, phi_i) wavelength = Ok (theta_o, phi_o, slice)
        /\ coord (data V a) "theta_o" = Ok theta_o
        /\ coord (data V a) "phi_o" = Ok phi_o
        /\ shape slice = [length theta_o; length phi_o]
        /\ forall p1 p2 p3 env,
             c1 !! p1 = Some theta_i -> c2 !! p2 = Some phi_i ->
             c3 !! p3 = Some wavelength ->
             item slice [env "theta_o"; env "phi_o"]
             = at_name (data V a) (at_incoming p1 p2 p3 env)).
Proof.
  intros Hcons Hc1 Hc2 Hc3. split.
  - intros Hout. unfold plotting_data. rewrite Hc1. cbn.
    destruct (contains c1 theta_i) eqn:H1; cbn; [| reflexivity].
    rewrite Hc2. cbn.
    destruct (contains c2 phi_i) eqn:H2; cbn; [| reflexivity].
    rewrite Hc3. cbn.
    destruct (contains c3 wavelength) eqn:H3; cbn; [| reflexivity].
    apply contains_elem_of in H1, H2, H3. tauto.
  - intros H1 H2 H3 Hfive Huniq Hprec.
    set (d := data V a) in *.
    assert (Hnd : NoDup (dims d)).
    { unfold five_dimensional in Hfive. rewrite Hfive. apply required_dims_NoDup. }
    assert (Hin : forall dim, dim ∈ required_dims -> dim ∈ dims d).
    { intros dim Hdim. unfold five_dimensional in Hfive. rewrite Hfive. exact Hdim. }
    destruct (coord_of_dim d "theta_o") as [theta_o Hto]; [apply Hin; set_solver |].
    destruct (coord_of_dim d "phi_o") as [phi_o Hpo]; [apply Hin; set_solver |].
    apply contains_elem_of in H1, H2, H3.
    destruct (get_loc_contains _ _ H1) as [q1 Hq1].
    destruct (get_loc_contains _ _ H2) as [q2 Hq2].
    destruct (get_loc_contains _ _ H3) as [q3 Hq3].
    pose proof (proj1 (coord_lookup _ _ _) Hc1) as Hl1.
    pose proof (proj1 (coord_lookup _ _ _) Hc2) as Hl2.
    pose proof (proj1 (coord_lookup _ _ _) Hc3) as Hl3.
    destruct (sel_spec d "theta_i" c1 theta_i q1 Hnd Hl1 Hq1)
      as (s1 & Hs1 & Hax1 & Hat1).
    destruct (sel_keeps_grid d s1 "theta_i" Hnd Hax1) as (Hnd1 & Hd1 & Hk1).
    assert (Hl2' : lookup_axis "phi_i" (axes s1) = Some c2).
    { rewrite Hk1 by discriminate. exact Hl2. }
    destruct (sel_spec s1 "phi_i" c2 phi_i q2 Hnd1 Hl2' Hq2)
      as (s2 & Hs2 & Hax2 & Hat2).
    destruct (sel_keeps_grid s1 s2 "phi_i" Hnd1 Hax2) as (Hnd2 & Hd2 & Hk2).
    assert (Hl3' : lookup_axis "wavelength" (axes s2) = Some c3).
    { rewrite Hk2, Hk1 by discriminate. exact Hl3. }
    destruct (sel_spec s2 "wavelength" c3 wavelength q3 Hnd2 Hl3' Hq3)
      as (s3 & Hs3 & Hax3 & Hat3).
    destruct (sel_keeps_grid s2 s3 "wavelength" Hnd2 Hax3) as (Hnd3 & Hd3 & Hk3).
    assert (Hdims3 : dims s3 = ["theta_o"; "phi_o"]).
    { rewrite Hd3, Hd2, Hd1. apply (outgoing_in_order (dims d)); assumption. }
    exists theta_o, phi_o, (to_numpy s3).
    split; [| split; [exact Hto | split; [exact Hpo | split]]].
    + unfold plotting_data. fold d. rewrite Hc1. cbn. rewrite H1. cbn.
      rewrite Hc2. cbn. rewrite H2. cbn. rewrite Hc3. cbn. rewrite H3. cbn.
      rewrite Hto, Hpo. cbn. rewrite Hs1. cbn. rewrite Hs2. cbn. rewrite Hs3.
      reflexivity.
    + assert (Hto3 : lookup_axis "theta_o" (axes s3) = Some theta_o).
      { rewrite Hk3, Hk2, Hk1 by discriminate. apply coord_lookup. exact Hto. }
      assert (Hpo3 : lookup_axis "phi_o" (axes s3) = Some phi_o).
      { rewrite Hk3, Hk2, Hk1 by discriminate. apply coord_lookup. exact Hpo. }
      unfold to_numpy, sizes. cbn [shape].
      unfold dims in Hdims3.
      destruct (axes s3) as [|[n1 x1] [|[n2 x2] [|? ?]]]; try discriminate.
      injection Hdims3 as -> ->.
      cbn in Hto3, Hpo3. injection Hto3 as ->. injection Hpo3 as ->.
      reflexivity.
    + intros p1 p2 p3 env Hp1 Hp2 Hp3.
      rewrite (get_loc_unique c1 theta_i p1 (unique_labels_coord d _ _ Huniq Hl1) Hp1) in Hq1.
      rewrite (get_loc_unique c2 phi_i p2 (unique_labels_coord d _ _ Huniq Hl2) Hp2) in Hq2.
      rewrite (get_loc_unique c3 wavelength p3 (unique_labels_coord d _ _ Huniq Hl3) Hp3) in Hq3.
      injection Hq1 as <-. injection Hq2 as <-. injection Hq3 as <-.
      unfold at_incoming. rewrite <- Hat1, <- Hat2, <- Hat3.
      unfold at_name. rewrite Hdims3. reflexivity.
Qed.

End PlottingFacts.

(** *** The completion helper, called directly

    On an array laid out as the class documents, [_copy_phi_o_values]
    returns an array whose [phi_o] axis is the old one with [target]
    appended; the cells at the appended position are those at the
    position of [origin], and when [target] was not a label before,
    every cell of the old grid keeps its value.  The result stores
    [phi_o] first, which is where [xr.where] puts the dimension of its
    condition. *)

Section CopyFacts.

Context {V : Type} (zero : V).

Lemma copy_phi_o_values_completes (d : DataArray V) (origin target : Z)
    (c_ti c_pi c_to c_po c_wl : list Z) (p : nat) :
  axes d = [("theta_i", c_ti); ("phi_i", c_pi); ("theta_o", c_to);
            ("phi_o", c_po); ("wavelength", c_wl)] ->
  NoDup c_po -> c_po !! p = Some origin ->
  exists r,
    _copy_phi_o_values V zero d origin target = Ok r
    /\ axes r = [("phi_o", (c_po ++ [target])%list); ("theta_i", c_ti);
                 ("phi_i", c_pi); ("theta_o", c_to); ("wavelength", c_wl)]
    /\ (forall env, at_name r (upd env "phi_o" (length c_po))
                    = at_name d (upd env "phi_o" p))
    /\ (forall env, (target ∉ c_po) -> in_grid d env ->
                    at_name r env = at_name d env).
Proof.
  intros Hax Hnd Hp. destruct d as [ax vals]. cbn in Hax. subst ax.
  pose proof (get_loc_unique c_po origin p Hnd Hp) as Hloc.
  unfold _copy_phi_o_values, coord. simpl.
  unfold getitem, sizes. simpl. rewrite !Nat.leb_refl. simpl.
  unfold setitem, sizes. simpl. rewrite !Nat.leb_refl. simpl.
  assert (Hle : (length c_po <=? length (c_po ++ [target]))%nat = true).
  { apply Nat.leb_le. rewrite length_app. lia. }
  rewrite Hle, decide_True by reflexivity. simpl.
  unfold sel. simpl. rewrite Hloc. simpl.
  unfold xr_where, same_index. simpl.
  rewrite !bool_decide_eq_true_2 by reflexivity. simpl.
  eexists. split; [reflexivity |]. simpl.
  split; [reflexivity |].
  unfold at_name, dims, env_of, upd, in_grid. simpl. split.
  - intros env. rewrite list_lookup_middle by reflexivity.
    rewrite Z.eqb_refl. reflexivity.
  - intros env Hfresh Hgrid.
    repeat match goal with
           | H : Forall _ (_ :: _) |- _ => apply Forall_cons in H as [? H]
           end.
    simpl in *.
    destruct (lookup_lt_is_Some_2 c_po (env "phi_o")) as [x Hx]; [assumption |].
    rewrite lookup_app_l, Hx by assumption.
    assert (Hne : (x =? target) = false).
    { apply Z.eqb_neq. intros ->. apply Hfresh.
      eapply list_elem_of_lookup_2. exact Hx. }
    rewrite Hne.
    repeat match goal with
           | H : (_ < _)%nat |- _ => apply Nat.ltb_lt in H; rewrite H; clear H
           end.
    reflexivity.
Qed.
End CopyFacts.

(** * The statements at the sample inputs *)

Import Samples.

Example splitext_data_nc :
  OsPath.splitext "spectra/data.nc" = ("spectra/data", ".nc").
Proof. reflexivity. Qed.

Example splitext_data_unknown :
  OsPath.splitext "data.unknown" = ("data", ".unknown").
Proof. reflexivity. Qed.

(** A leading dot of the file name does not start an extension. *)
Example splitext_hidden_file : OsPath.splitext "spectra/.nc" = ("spectra/.nc", "").
Proof. reflexivity. Qed.

Lemma unknown_category_fails_witness :
  Data.open Z thuillier_getter empty_getter resolve_here load_length
    (Some "brdf") (Some "thuillier_2003") None
  = Raise (Data.invalid_category "brdf")
  /\ Data.registered Z thuillier_getter empty_getter "brdf"
     = Raise (Data.invalid_category "brdf")
  /\ Data.find Z thuillier_getter empty_getter "brdf"
     = Raise (Data.invalid_category "brdf").
Proof.
  apply (unknown_category_fails thuillier_getter empty_getter resolve_here
           load_length "brdf" "thuillier_2003").
  vm_compute. reflexivity.
Defined.

Lemma open_delegates_to_getter_witness :
  Data.open Z empty_getter thuillier_getter resolve_here load_length
    (Some "solar_irradiance_spectrum") (Some "thuillier_2003") None
  = Ok 2003.
Proof.
  apply (open_delegates_to_getter empty_getter thuillier_getter resolve_here
           load_length "solar_irradiance_spectrum" "thuillier_2003"
           thuillier_getter).
  - vm_compute. reflexivity.
  - vm_compute. reflexivity.
Defined.

Lemma open_path_by_extension_witness :
  Data.open Z empty_getter thuillier_getter resolve_here load_length
    None None (Some "data.nc") = Ok 7
  /\ Data.open Z empty_getter thuillier_getter resolve_here load_length
       None None (Some "data.unknown") = Raise (Data.cannot_load "data.unknown").
Proof.
  split.
  - apply (open_path_by_extension empty_getter thuillier_getter resolve_here
             load_length None None "data.nc" "data.nc");
      vm_compute; reflexivity.
  - apply (open_path_by_extension empty_getter thuillier_getter resolve_here
             load_length None None "data.unknown" "data.unknown").
    + vm_compute. reflexivity.
    + vm_compute. discriminate.
Defined.

Lemma missing_axis_fails_witness :
  exists present first rest,
    required_dims = (present ++ first :: rest)%list
    /\ Forall (fun dim => dim ∈ dims grid_without_theta_o) present
    /\ (first ∉ dims grid_without_theta_o)
    /\ _check_data Z (PyDataArray Z grid_without_theta_o)
       = Raise (missing_dimension first)
    /\ DataArrayBRDFAdapter Z 0 (PyDataArray Z grid_without_theta_o)
       = Raise (missing_dimension first).
Proof.
  apply (missing_axis_fails 0 grid_without_theta_o "theta_o").
  - apply (bool_decide_unpack _). vm_compute. exact I.
  - apply (bool_decide_unpack _). vm_compute. exact I.
Defined.

Lemma complete_boundary_keeps_array_witness :
  DataArrayBRDFAdapter Z 0 (PyDataArray Z grid_complete) = Ok adapter_complete.
Proof.
  apply (complete_boundary_keeps_array 0 grid_complete [0; 90; 180; 270; 360]).
  - apply (bool_decide_unpack _). vm_compute. exact I.
  - vm_compute. reflexivity.
  - apply (bool_decide_unpack _). vm_compute. exact I.
  - apply (bool_decide_unpack _). vm_compute. exact I.
Defined.

Lemma plotting_data_exact_match_witness :
  plotting_data Z adapter_complete (30, 0) 551 = Raise no_exact_match
  /\ exists theta_o phi_o slice,
       plotting_data Z adapter_complete (30, 0) 550 = Ok (theta_o, phi_o, slice)
       /\ coord (data Z adapter_complete) "theta_o" = Ok theta_o
       /\ coord (data Z adapter_complete) "phi_o" = Ok phi_o
       /\ shape slice = [length theta_o; length phi_o]
       /\ forall p1 p2 p3 env,
            [0; 30] !! p1 = Some 30 -> [0] !! p2 = Some 0 ->
            [550] !! p3 = Some 550 ->
            item slice [env "theta_o"; env "phi_o"]
            = at_name (data Z adapter_complete) (at_incoming p1 p2 p3 env).
Proof.
  split.
  - apply (plotting_data_exact_match 0 (PyDataArray Z grid_complete)
             adapter_complete 30 0 551 [0; 30] [0] [550]);
      try (vm_compute; reflexivity).
    right. right. apply (bool_decide_unpack _). vm_compute. exact I.
  - apply (plotting_data_exact_match 0 (PyDataArray Z grid_complete)
             adapter_complete 30 0 550 [0; 30] [0] [550]);
      try (vm_compute; reflexivity);
      try (apply (bool_decide_unpack _); vm_compute; exact I).
    exists ["theta_i"; "phi_i"], [], ["wavelength"]. reflexivity.
Defined.

(** C3 (as stated) fails: on the array that stores [phi_o] before
    [theta_o], construction succeeds and the slice that [plotting_data]
    returns has shape (len phi_o, len theta_o) = (3, 2), not (2, 3). *)
Lemma plotting_data_shape_counterexample :
  DataArrayBRDFAdapter Z 0 (PyDataArray Z grid_transposed) = Ok adapter_transposed
  /\ match plotting_data Z adapter_transposed (0, 0) 550 with
     | Ok (theta_o, phi_o, slice) =>
         theta_o = [0; 45] /\ phi_o = [0; 180; 360]
         /\ shape slice = [3; 2]%nat
         /\ shape slice <> [length theta_o; length phi_o]
     | Raise _ => False
     end.
Proof.
  split; [reflexivity |].
  vm_compute. repeat split. discriminate.
Qed.

(** C1 (the code at the failing input): on the array whose [phi_o]
    coordinate is [0; 90; 180; 270], construction does not succeed: the
    post-init step looks up [copy_phi_o_values], which the class does
    not define, and the [AttributeError] ends construction. *)
Theorem missing_360_raises_attribute_error :
  DataArrayBRDFAdapter Z 0 (PyDataArray Z grid_missing_360)
  = Raise (no_attribute "copy_phi_o_values").
Proof. reflexivity. Qed.

(** C2 (the code at the failing input): on the array whose [phi_o]
    coordinate is [10; 90; 180], construction ends with the
    [AttributeError] of the first branch and not with the [ValueError]
    "Data contains data for neither 0° nor 360°!". *)
Theorem no_boundary_raises_attribute_error :
  DataArrayBRDFAdapter Z 0 (PyDataArray Z grid_no_boundary)
  = Raise (no_attribute "copy_phi_o_values")
  /\ DataArrayBRDFAdapter Z 0 (PyDataArray Z grid_no_boundary)
     <> Raise incomplete_boundary.
Proof. split; [reflexivity | discriminate]. Qed.

(** C9 (the code at the failing input): on the array whose [phi_o]
    coordinate is [90; 180; 270; 360], the post-init step takes the
    first branch, the one for a missing 0, and the call it makes there
    raises [AttributeError]: no cell is filled. *)
Theorem missing_0_raises_attribute_error :
  __attrs_post_init__ Z 0 grid_missing_0
  = (new_data ← call_method Z 0 grid_missing_0 "copy_phi_o_values" 360 0;
     Ok (mk_adapter Z new_data FLAG_GRIDDED_ADAPTER))
  /\ DataArrayBRDFAdapter Z 0 (PyDataArray Z grid_missing_0)
     = Raise (no_attribute "copy_phi_o_values").
Proof. split; reflexivity. Qed.

(** * Further properties of the resolver *)

Lemma substring_whole (p : string) : substring 0 (String.length p) p = p.
Proof. induction p as [|c p IH]; cbn; [reflexivity | f_equal; exact IH]. Qed.

Lemma substring_split (k : nat) (p : string) :
  substring 0 k p ++ substring k (String.length p - k) p = p.
Proof.
  revert k. induction p as [|c p IH]; intros k.
  - destruct k; reflexivity.
  - destruct k as [|k].
    + cbn [substring]. rewrite Nat.sub_0_r.
      change (substring 0 (String.length (String c p)) (String c p) = String c p).
      apply substring_whole.
    + cbn [substring String.length Nat.sub].
      change (String c (substring 0 k p ++ substring k (String.length p - k) p)
              = String c p).
      f_equal. apply IH.
Qed.

Lemma append_empty_r (p : string) : p ++ "" = p.
Proof.
  induction p as [|c p IH]; [reflexivity |].
  change (String c (p ++ "") = String c p). f_equal. exact IH.
Qed.

Theorem splitext_concat (p : string) :
  fst (OsPath.splitext p) ++ snd (OsPath.splitext p) = p.
Proof.
  unfold OsPath.splitext.
  destruct (OsPath.rfind OsPath.extsep p >? OsPath.rfind OsPath.sep p).
  - destruct (OsPath.has_non_dot _ _); cbn [fst snd].
    + apply substring_split.
    + apply append_empty_r.
  - apply append_empty_r.
Qed.

(** Where the dot of the extension sits. *)
Lemma rfind_from_bounds (c : ascii) (p : list ascii) (i found : Z) :
  found < i ->
  let r := OsPath.rfind_from c p i found in
  (r = found \/ (i <= r < i + Z.of_nat (length p)
                 /\ p !! Z.to_nat (r - i) = Some c)).
Proof.
  revert i found. induction p as [|x p IH]; intros i found Hlt; cbn.
  - left. reflexivity.
  - destruct (Ascii.eqb_spec x c) as [->|Hne].
    + destruct (IH (i + 1) i ltac:(lia)) as [Heq|(Hr & Hp)].
      * right. rewrite Heq. rewrite Z.sub_diag. cbn. split; [lia | reflexivity].
      * right. split; [lia |].
        replace (Z.to_nat (OsPath.rfind_from c p (i + 1) i - i))
          with (S (Z.to_nat (OsPath.rfind_from c p (i + 1) i - (i + 1)))) by lia.
        exact Hp.
    + destruct (IH (i + 1) found ltac:(lia)) as [Heq|(Hr & Hp)].
      * left. exact Heq.
      * right. split; [lia |].
        replace (Z.to_nat (OsPath.rfind_from c p (i + 1) found - i))
          with (S (Z.to_nat (OsPath.rfind_from c p (i + 1) found - (i + 1)))) by lia.
        exact Hp.
Qed.

Section ResolverMore.

Context {Dataset : Type}.
Variables absorption solar : Data.Getter Dataset.
Variable resolve : string -> result string.
Variable open_dataset : string -> result Dataset.

Local Abbreviation getters := (Data._getters Dataset absorption solar).
Local Abbreviation open := (Data.open Dataset absorption solar resolve open_dataset).
Local Abbreviation registered := (Data.registered Dataset absorption solar).
Local Abbreviation find := (Data.find Dataset absorption solar).

(** X7: path-based [open] returns a data set only for a path that
    resolves to a name of the form [root ++ ".nc"], and the data set is
    the one that the loader returns for that name. *)
Theorem open_path_success_inv (category id : option string) (path : string)
    (ds : Dataset) :
  open category id (Some path) = Ok ds ->
  exists fname root,
    resolve path = Ok fname
    /\ fname = root ++ ".nc"
    /\ open_dataset fname = Ok ds.
Proof.
  unfold Data.open. destruct (resolve path) as [fname|e] eqn:Hres; [| discriminate].
  cbn. destruct (String.eqb_spec (snd (OsPath.splitext fname)) ".nc") as [Hext|Hext];
    [| discriminate].
  intros Hload. exists fname, (fst (OsPath.splitext fname)).
  split; [reflexivity |]. split; [| exact Hload].
  rewrite <- Hext. symmetry. apply splitext_concat.
Qed.

(** X8: the registry routes exactly two category names.  Each of
    [open], [registered] and [find] reaches the absorption getter for
    "absorption_spectrum", the solar getter for
    "solar_irradiance_spectrum", and raises "invalid data category" for
    every other name. *)
Theorem registry_routes_two_categories (category id : string) :
  let getter :=
    if decide (category = "absorption_spectrum") then Some absorption
    else if decide (category = "solar_irradiance_spectrum") then Some solar
    else None in
  open (Some category) (Some id) None
    = match getter with
      | Some g => Data.getter_open Dataset g id
      | None => Raise (Data.invalid_category category)
      end
  /\ registered category
     = match getter with
       | Some g => Data.getter_registered Dataset g
       | None => Raise (Data.invalid_category category)
       end
  /\ find category
     = match getter with
       | Some g => Data.getter_find Dataset g
       | None => Raise (Data.invalid_category category)
       end.
Proof.
  cbv zeta. unfold Data.open, Data.registered, Data.find.
  rewrite (getters_lookup absorption solar category).
  repeat case_decide; repeat split; try reflexivity;
    destruct (Data.getter_open Dataset _ id); reflexivity.
Qed.

End ResolverMore.

(** * Further properties of the gridded adapter *)

Lemma get_loc_absent (c : list Z) (label : Z) :
  label ∉ c -> get_loc c label = None.
Proof.
  induction c as [|x c IH]; intros Hout; [reflexivity |].
  apply not_elem_of_cons in Hout as [Hne Hout]. cbn.
  destruct (Z.eqb_spec x label) as [->|_]; [contradiction |].
  rewrite (IH Hout). reflexivity.
Qed.

Lemma outgoing_transposed (ds : list string) :
  ds ≡ₚ required_dims -> precedes "phi_o" "theta_o" ds ->
  outgoing ds = ["phi_o"; "theta_o"].
Proof.
  intros Hperm (l1 & l2 & l3 & ->).
  assert (Hout : outgoing (l1 ++ "phi_o" :: l2 ++ "theta_o" :: l3)
                 ≡ₚ ["theta_o"; "phi_o"]).
  { unfold outgoing. rewrite Hperm. reflexivity. }
  assert (Hsplit : outgoing (l1 ++ "phi_o" :: l2 ++ "theta_o" :: l3)
                   = (outgoing l1 ++ "phi_o" :: outgoing l2
                        ++ "theta_o" :: outgoing l3)%list).
  { unfold outgoing.
    repeat (rewrite !filter_app || rewrite filter_cons_True by discriminate).
    reflexivity. }
  rewrite Hsplit in *.
  apply Permutation_length in Hout.
  rewrite !length_app in Hout. cbn in Hout. rewrite !length_app in Hout. cbn in Hout.
  destruct (outgoing l1), (outgoing l2), (outgoing l3); cbn in Hout; try lia.
  reflexivity.
Qed.

Section AdapterMore.

Context {V : Type} (zero : V).

Local Abbreviation construct := (DataArrayBRDFAdapter V zero).

(** X1: construction succeeds only on an array that has the five
    required axes and whose [phi_o] coordinate holds both 0 and 360; the
    adapter then holds the array as it was supplied and carries the
    gridded flag. *)
Theorem construction_inversion (value : pyobj V) (a : adapter V) :
  construct value = Ok a ->
  exists d phi_o,
    value = PyDataArray V d
    /\ a = mk_adapter V d FLAG_GRIDDED_ADAPTER
    /\ Forall (fun dim => dim ∈ dims d) required_dims
    /\ coord d "phi_o" = Ok phi_o
    /\ 0 ∈ phi_o /\ 360 ∈ phi_o.
Proof. exact (constructed_inv zero value a). Qed.

(** X2: an array with the five required axes whose [phi_o] coordinate
    lacks 0 or lacks 360 cannot be wrapped: construction raises the
    [AttributeError] for [copy_phi_o_values]. *)
Theorem incomplete_grid_raises_attribute_error (d : DataArray V)
    (phi_o : list Z) :
  Forall (fun dim => dim ∈ dims d) required_dims ->
  coord d "phi_o" = Ok phi_o ->
  (0 ∉ phi_o) \/ (360 ∉ phi_o) ->
  construct (PyDataArray V d) = Raise (no_attribute "copy_phi_o_values").
Proof.
  intros Hdims Hphi Hmiss.
  unfold DataArrayBRDFAdapter, _check_data.
  rewrite (check_dims_ok _ _ Hdims). cbn.
  rewrite (post_init_branches zero d phi_o Hphi), !call_copy_phi_o_values.
  destruct (contains phi_o 0) eqn:H0; cbn; [| reflexivity].
  destruct (contains phi_o 360) eqn:H360; cbn; [| reflexivity].
  apply contains_elem_of in H0, H360. tauto.
Qed.

(** X5: called on an array in the documented layout with an [origin]
    that is not a [phi_o] label, the completion helper raises the
    [KeyError] of the failed selection. *)
Theorem copy_phi_o_values_missing_origin (d : DataArray V) (origin target : Z)
    (c_ti c_pi c_to c_po c_wl : list Z) :
  axes d = [("theta_i", c_ti); ("phi_i", c_pi); ("theta_o", c_to);
            ("phi_o", c_po); ("wavelength", c_wl)] ->
  (origin ∉ c_po) ->
  _copy_phi_o_values V zero d origin target = Raise (KeyError (NumKey origin)).
Proof.
  intros Hax Hout. destruct d as [ax vals]. cbn in Hax. subst ax.
  pose proof (get_loc_absent c_po origin Hout) as Hloc.
  unfold _copy_phi_o_values, coord. simpl.
  unfold getitem, sizes. simpl. rewrite !Nat.leb_refl. simpl.
  unfold setitem, sizes. simpl. rewrite !Nat.leb_refl. simpl.
  assert (Hle : (length c_po <=? length (c_po ++ [target]))%nat = true).
  { apply Nat.leb_le. rewrite length_app. lia. }
  rewrite Hle, decide_True by reflexivity. simpl.
  unfold sel. simpl. rewrite Hloc. reflexivity.
Qed.

(** The slice of [plotting_data] over the two axes [o1], [o2] that the
    three selections leave, in their storage order. *)
Lemma plotting_data_slice (a : adapter V) (theta_i phi_i wavelength : Z)
    (c1 c2 c3 : list Z) (o1 o2 : string) :
  coord (data V a) "theta_i" = Ok c1 ->
  coord (data V a) "phi_i" = Ok c2 ->
  coord (data V a) "wavelength" = Ok c3 ->
  theta_i ∈ c1 -> phi_i ∈ c2 -> wavelength ∈ c3 ->
  five_dimensional (data V a) -> unique_labels (data V a) ->
  outgoing (dims (data V a)) = [o1; o2] ->
  exists theta_o phi_o co1 co2 slice,
    plotting_data V a (theta_i, phi_i) wavelength = Ok (theta_o, phi_o, slice)
    /\ coord (data V a) "theta_o" = Ok theta_o
    /\ coord (data V a) "phi_o" = Ok phi_o
    /\ coord (data V a) o1 = Ok co1
    /\ coord (data V a) o2 = Ok co2
    /\ shape slice = [length co1; length co2]
    /\ forall p1 p2 p3 env,
         c1 !! p1 = Some theta_i -> c2 !! p2 = Some phi_i ->
         c3 !! p3 = Some wavelength ->
         item slice [env o1; env o2]
         = at_name (data V a) (at_incoming p1 p2 p3 env).
Proof.
  intros Hc1 Hc2 Hc3 H1 H2 H3 Hfive Huniq Hout.
  set (d := data V a) in *.
  assert (Hnd : NoDup (dims d)).
  { unfold five_dimensional in Hfive. rewrite Hfive. apply required_dims_NoDup. }
  assert (Hin : forall dim, dim ∈ required_dims -> dim ∈ dims d).
  { intros dim Hdim. unfold five_dimensional in Hfive. rewrite Hfive. exact Hdim. }
  assert (Hkeep : forall o, o ∈ outgoing (dims d) ->
            o <> "theta_i" /\ o <> "phi_i" /\ o <> "wavelength" /\ o ∈ dims d).
  { intros o Ho. unfold outgoing in Ho.
    apply list_elem_of_filter in Ho as [? Ho].
    apply list_elem_of_filter in Ho as [? Ho].
    apply list_elem_of_filter in Ho as [? Ho]. auto. }
  destruct (Hkeep o1) as (Ho1a & Ho1b & Ho1c & Ho1).
  { rewrite Hout. apply elem_of_cons. left. reflexivity. }
  destruct (Hkeep o2) as (Ho2a & Ho2b & Ho2c & Ho2).
  { rewrite Hout. apply elem_of_cons. right. apply elem_of_cons. left. reflexivity. }
  destruct (coord_of_dim d "theta_o") as [theta_o Hto].
  { apply Hin, (bool_decide_unpack _). exact I. }
  destruct (coord_of_dim d "phi_o") as [phi_o Hpo].
  { apply Hin, (bool_decide_unpack _). exact I. }
  destruct (coord_of_dim d o1 Ho1) as [co1 Hco1].
  destruct (coord_of_dim d o2 Ho2) as [co2 Hco2].
  apply contains_elem_of in H1, H2, H3.
  destruct (get_loc_contains _ _ H1) as [q1 Hq1].
  destruct (get_loc_contains _ _ H2) as [q2 Hq2].
  destruct (get_loc_contains _ _ H3) as [q3 Hq3].
  pose proof (proj1 (coord_lookup _ _ _) Hc1) as Hl1.
  pose proof (proj1 (coord_lookup _ _ _) Hc2) as Hl2.
  pose proof (proj1 (coord_lookup _ _ _) Hc3) as Hl3.
  destruct (sel_spec d "theta_i" c1 theta_i q1 Hnd Hl1 Hq1)
    as (s1 & Hs1 & Hax1 & Hat1).
  destruct (sel_keeps_grid d s1 "theta_i" Hnd Hax1) as (Hnd1 & Hd1 & Hk1).
  assert (Hl2' : lookup_axis "phi_i" (axes s1) = Some c2).
  { rewrite Hk1 by discriminate. exact Hl2. }
  destruct (sel_spec s1 "phi_i" c2 phi_i q2 Hnd1 Hl2' Hq2)
    as (s2 & Hs2 & Hax2 & Hat2).
  destruct (sel_keeps_grid s1 s2 "phi_i" Hnd1 Hax2) as (Hnd2 & Hd2 & Hk2).
  assert (Hl3' : lookup_axis "wavelength" (axes s2) = Some c3).
  { rewrite Hk2, Hk1 by discriminate. exact Hl3. }
  destruct (sel_spec s2 "wavelength" c3 wavelength q3 Hnd2 Hl3' Hq3)
    as (s3 & Hs3 & Hax3 & Hat3).
  destruct (sel_keeps_grid s2 s3 "wavelength" Hnd2 Hax3) as (Hnd3 & Hd3 & Hk3).
  assert (Hdims3 : dims s3 = [o1; o2]).
  { rewrite Hd3, Hd2, Hd1. exact Hout. }
  exists theta_o, phi_o, co1, co2, (to_numpy s3).
  split; [| split; [exact Hto | split; [exact Hpo | split;
           [exact Hco1 | split; [exact Hco2 | split]]]]].
  - unfold plotting_data. fold d. rewrite Hc1. cbn. rewrite H1. cbn.
    rewrite Hc2. cbn. rewrite H2. cbn. rewrite Hc3. cbn. rewrite H3. cbn.
    rewrite Hto, Hpo. cbn. rewrite Hs1. cbn. rewrite Hs2. cbn. rewrite Hs3.
    reflexivity.
  - assert (H13 : lookup_axis o1 (axes s3) = Some co1).
    { rewrite Hk3, Hk2, Hk1 by assumption. apply coord_lookup. exact Hco1. }
    assert (H23 : lookup_axis o2 (axes s3) = Some co2).
    { rewrite Hk3, Hk2, Hk1 by assumption. apply coord_lookup. exact Hco2. }
    assert (Hne : o1 <> o2).
    { rewrite Hdims3 in Hnd3. apply NoDup_cons in Hnd3 as [Hne _].
      intros ->. apply Hne. left. }
    unfold to_numpy, sizes. cbn [shape].
    unfold dims in Hdims3.
    destruct (axes s3) as [|[n1 x1] [|[n2 x2] [|? ?]]]; try discriminate.
    injection Hdims3 as -> ->.
    cbn in H13, H23. rewrite decide_True in H13 by reflexivity.
    rewrite decide_False, decide_True in H23 by (reflexivity || assumption).
    injection H13 as ->. injection H23 as ->. reflexivity.
  - intros p1 p2 p3 env Hp1 Hp2 Hp3.
    rewrite (get_loc_unique c1 theta_i p1 (unique_labels_coord d _ _ Huniq Hl1) Hp1) in Hq1.
    rewrite (get_loc_unique c2 phi_i p2 (unique_labels_coord d _ _ Huniq Hl2) Hp2) in Hq2.
    rewrite (get_loc_unique c3 wavelength p3 (unique_labels_coord d _ _ Huniq Hl3) Hp3) in Hq3.
    injection Hq1 as <-. injection Hq2 as <-. injection Hq3 as <-.
    unfold at_incoming. rewrite <- Hat1, <- Hat2, <- Hat3.
    unfold at_name. rewrite Hdims3. reflexivity.
Qed.

(** X6: on an adapter whose array stores [phi_o] before [theta_o], the
    slice that [plotting_data] returns is indexed by (phi_o, theta_o):
    its shape is (len phi_o, len theta_o) and its cell (j, i) is the
    stored cell at outgoing zenith i and outgoing azimuth j. *)
Theorem plotting_data_transposed_storage (a : adapter V)
    (theta_i phi_i wavelength : Z) (c1 c2 c3 : list Z) :
  coord (data V a) "theta_i" = Ok c1 ->
  coord (data V a) "phi_i" = Ok c2 ->
  coord (data V a) "wavelength" = Ok c3 ->
  theta_i ∈ c1 -> phi_i ∈ c2 -> wavelength ∈ c3 ->
  five_dimensional (data V a) -> unique_labels (data V a) ->
  precedes "phi_o" "theta_o" (dims (data V a)) ->
  exists theta_o phi_o slice,
    plotting_data V a (theta_i, phi_i) wavelength = Ok (theta_o, phi_o, slice)
    /\ coord (data V a) "theta_o" = Ok theta_o
    /\ coord (data V a) "phi_o" = Ok phi_o
    /\ shape slice = [length phi_o; length theta_o]
    /\ forall p1 p2 p3 env,
         c1 !! p1 = Some theta_i -> c2 !! p2 = Some phi_i ->
         c3 !! p3 = Some wavelength ->
         item slice [env "phi_o"; env "theta_o"]
         = at_name (data V a) (at_incoming p1 p2 p3 env).
Proof.
  intros Hc1 Hc2 Hc3 H1 H2 H3 Hfive Huniq Hprec.
  destruct (plotting_data_slice a theta_i phi_i wavelength c1 c2 c3
              "phi_o" "theta_o" Hc1 Hc2 Hc3 H1 H2 H3 Hfive Huniq
              (outgoing_transposed _ Hfive Hprec))
    as (theta_o & phi_o & co1 & co2 & slice & Hp & Hto & Hpo & Ho1 & Ho2 & Hsh & Hcell).
  rewrite Hpo in Ho1. rewrite Hto in Ho2.
  injection Ho1 as <-. injection Ho2 as <-.
  exists theta_o, phi_o, slice. auto.
Qed.

End AdapterMore.

(** * What construction and selection never do *)


Section NeverFacts.

Context {V : Type} (zero : V).

(** X3: no input makes construction raise the [ValueError] "Data
    contains data for neither 0° nor 360°!". *)
Theorem boundary_error_never_raised (value : pyobj V) :
  DataArrayBRDFAdapter V zero value <> Raise incomplete_boundary.
Proof. exact (incomplete_boundary_unreachable zero value). Qed.

(** X4: called directly on an array in the documented layout with
    [origin] at position [p] of the [phi_o] labels, the helper returns
    an array whose [phi_o] axis, stored first, is the old one with
    [target] appended; the cells at the appended position are those at
    [origin], and when [target] was not a label before, every cell of
    the old grid keeps its value. *)
Theorem completion_helper_completes (d : DataArray V) (origin target : Z)
    (c_ti c_pi c_to c_po c_wl : list Z) (p : nat) :
  axes d = [("theta_i", c_ti); ("phi_i", c_pi); ("theta_o", c_to);
            ("phi_o", c_po); ("wavelength", c_wl)] ->
  NoDup c_po -> c_po !! p = Some origin ->
  exists r,
    _copy_phi_o_values V zero d origin target = Ok r
    /\ axes r = [("phi_o", (c_po ++ [target])%list); ("theta_i", c_ti);
                 ("phi_i", c_pi); ("theta_o", c_to); ("wavelength", c_wl)]
    /\ (forall env, at_name r (upd env "phi_o" (length c_po))
                    = at_name d (upd env "phi_o" p))
    /\ (forall env, (target ∉ c_po) -> in_grid d env ->
                    at_name r env = at_name d env).
Proof. exact (copy_phi_o_values_completes zero d origin target _ _ _ _ _ p). Qed.


End NeverFacts.

(** * Properties of the views *)

Import BrdfView.

(** *** Slices of a list *)

Lemma slice_halves_even {A : Type} (z : list A) (h : nat) :
  length z = (2 * h)%nat ->
  slice_down z (Z.of_nat (length z) / 2 - 1) = rev (take h z)
  /\ slice_from z (Z.of_nat (length z) / 2) = drop h z.
Proof.
  intros Hlen. unfold slice_down, slice_from. rewrite Hlen.
  replace (Z.of_nat (2 * h) / 2) with (Z.of_nat h)
    by (rewrite Nat2Z.inj_mul, Z.mul_comm, Z.div_mul; lia).
  split.
  - destruct h as [|h].
    + cbn. reflexivity.
    + rewrite (proj2 (Z.ltb_ge _ _)) by lia.
      do 2 f_equal. lia.
  - f_equal. lia.
Qed.

Lemma slice_halves_odd {A : Type} (z : list A) (h : nat) :
  length z = (2 * h + 1)%nat ->
  slice_down z (Z.of_nat (length z) / 2) = rev (take (S h) z)
  /\ slice_from z (Z.of_nat (length z) / 2) = drop h z.
Proof.
  intros Hlen. unfold slice_down, slice_from. rewrite Hlen.
  replace (Z.of_nat (2 * h + 1) / 2) with (Z.of_nat h).
  2:{ apply Z.div_unique with (r := 1); lia. }
  split.
  - rewrite (proj2 (Z.ltb_ge _ _)) by lia. do 2 f_equal. lia.
  - f_equal. lia.
Qed.

Lemma list_insert_inserts_ge {A : Type} (l : list A) (i j : nat) (x : A) (k : list A) :
  (j + length k <= i)%nat ->
  <[i:=x]>(list_inserts j k l) = list_inserts j k (<[i:=x]>l).
Proof.
  revert j. induction k as [|y k IH]; intros j Hle; [reflexivity |].
  cbn in *. rewrite list_insert_insert_ne by lia. rewrite IH by lia. reflexivity.
Qed.

(** *** Positions of a label *)



Section ViewFacts.

Context {V : Type} (zero : V) {angle : Type}.
Variable deg2rad : Z -> angle.
Variables angle_zero angle_pi : angle.
Context {BSDF : Type}.
Variable bsdf_evaluate : BSDF -> angle * angle -> list Z -> Z -> result V.

Local Abbreviation evaluate :=
  (principal_evaluate V zero angle deg2rad angle_zero angle_pi BSDF bsdf_evaluate).
Local Abbreviation to_xarray := (principal_to_xarray V angle angle_zero angle_pi BSDF).

(** *** [to_xarray] of the principal plane *)

Lemma principal_to_xarray_spec (self : PrincipalPlaneView V angle BSDF)
    (z : list V) :
  _z self = Some z ->
  let h := (length z / 2)%nat in
  let c := ((length z + 1) / 2)%nat in
  to_xarray self =
    (if decide (length (_zen self) = c)
     then Ok (mk_plane_array [angle_pi; angle_zero]
                (_zen self) [rev (take c z); drop h z])
     else Raise conflicting_sizes)
  /\ (rev (rev (take c z)) ++ drop (c - h) (drop h z))%list = z.
Proof.
  intros Hz h c. unfold principal_to_xarray. rewrite Hz.
  destruct (Nat.Even_or_Odd (length z)) as [[k Hk]|[k Hk]].
  - assert (Hh : h = k) by (unfold h; rewrite Hk, Nat.mul_comm; apply Nat.div_mul; lia).
    assert (Hc : c = k).
    { unfold c. rewrite Hk. symmetry.
      apply (Nat.div_unique _ 2 k 1); lia. }
    destruct (slice_halves_even z k Hk) as [-> ->].
    replace (Z.of_nat (length z) mod 2 =? 0) with true.
    2:{ symmetry. apply Z.eqb_eq. rewrite Hk, Nat2Z.inj_mul, Z.mul_comm.
        apply Z.mod_mul. lia. }
    rewrite Hh, Hc. split.
    + cbn [forallb]. rewrite length_rev, length_take, length_drop.
      replace (k `min` length z)%nat with k by lia.
      replace (length z - k)%nat with k by lia.
      case_decide as Hlen.
      * rewrite Hlen, Nat.eqb_refl. reflexivity.
      * apply Nat.eqb_neq in Hlen. rewrite Nat.eqb_sym, Hlen. reflexivity.
    + rewrite rev_involutive, Nat.sub_diag, drop_0. apply take_drop.
  - assert (Hh : h = k).
    { unfold h. rewrite Hk. symmetry. apply (Nat.div_unique _ 2 k 1); lia. }
    assert (Hc : c = S k).
    { unfold c. rewrite Hk. symmetry. apply (Nat.div_unique _ 2 (S k) 0); lia. }
    destruct (slice_halves_odd z k Hk) as [-> ->].
    replace (Z.of_nat (length z) mod 2 =? 0) with false.
    2:{ symmetry. apply Z.eqb_neq. rewrite Hk.
        replace (Z.of_nat (2 * k + 1)) with (1 + Z.of_nat k * 2) by lia.
        rewrite Z.mod_add by lia. discriminate. }
    rewrite Hh, Hc. split.
    + cbn [forallb]. rewrite length_rev, length_take, length_drop.
      replace (S k `min` length z)%nat with (S k) by lia.
      replace (length z - k)%nat with (S k) by lia.
      case_decide as Hlen.
      * rewrite Hlen, Nat.eqb_refl. reflexivity.
      * apply Nat.eqb_neq in Hlen. rewrite Nat.eqb_sym, Hlen. reflexivity.
    + rewrite rev_involutive. replace (S k - k)%nat with 1%nat by lia.
      rewrite drop_drop. replace (k + 1)%nat with (S k) by lia. apply take_drop.
Qed.


(** *** The sampled branch of the principal plane *)

Lemma sample_loop_up (ev : angle * angle -> result V) (phi : angle) (n : nat)
    (zen : list angle) (vs : list V) (i : nat) (z : list V) :
  Forall2 (fun theta v => ev (theta, phi) = Ok v) zen vs ->
  sample_loop V angle ev phi (fun i => (i + n)%nat) zen i z
  = (list_inserts (i + n) vs z, Ok tt).
Proof.
  intros Hev. revert i z.
  induction Hev as [|theta v zen vs Hv _ IH]; intros i z; [reflexivity |].
  cbn [sample_loop]. rewrite Hv, IH. cbn [list_inserts].
  rewrite list_insert_inserts_lt by lia. reflexivity.
Qed.

Lemma sample_loop_down (ev : angle * angle -> result V) (phi : angle) (n : nat)
    (zen : list angle) (vs : list V) (i : nat) (z : list V) :
  Forall2 (fun theta v => ev (theta, phi) = Ok v) zen vs ->
  (i + length zen <= n)%nat ->
  sample_loop V angle ev phi (fun i => (n - (i + 1))%nat) zen i z
  = (list_inserts (n - i - length zen) (rev vs) z, Ok tt).
Proof.
  intros Hev. revert i z.
  induction Hev as [|theta v zen vs Hv Hall IH]; intros i z Hle; [reflexivity |].
  cbn [sample_loop length] in *. rewrite Hv. rewrite IH by lia.
  cbn [rev]. rewrite list_inserts_app_l. cbn [list_inserts].
  rewrite length_rev, <- (Forall2_length _ _ _ Hall).
  rewrite <- list_insert_inserts_ge
    by (rewrite length_rev, <- (Forall2_length _ _ _ Hall); lia).
  replace (n - S i - length zen)%nat with (n - i - S (length zen))%nat by lia.
  replace (length zen + (n - i - S (length zen)))%nat with (n - (i + 1))%nat by lia.
  reflexivity.
Qed.

Lemma sampled_halves (n : nat) (lower upper : list V) :
  length lower = n -> length upper = n ->
  list_inserts 0 lower (list_inserts n upper (replicate (n * 2) zero))
  = (lower ++ upper)%list.
Proof.
  intros Hl Hu.
  replace (replicate (n * 2) zero)
    with (replicate n zero ++ replicate n zero)%list
    by (rewrite <- replicate_add; f_equal; lia).
  replace (list_inserts n upper (replicate n zero ++ replicate n zero))
    with (replicate n zero ++ upper)%list.
  - apply list_inserts_0_r. rewrite length_replicate. exact Hl.
  - pose proof (list_inserts_app_r upper (replicate n zero) (replicate n zero) 0) as H.
    rewrite length_replicate, Nat.add_0_r in H. rewrite H. f_equal.
    symmetry. rewrite <- (app_nil_r upper) at 1.
    apply list_inserts_0_l. rewrite length_replicate. exact Hu.
Qed.

(** X11: on a sampled adapter all of whose evaluations succeed,
    [evaluate] stores the values at phi = pi, reversed, followed by the
    values at phi = 0, and [to_xarray] then returns the two rows in the
    order of the zenith angles. *)
Theorem principal_sampled_round_trip (self : PrincipalPlaneView V angle BSDF)
    (bsdf : BSDF) (at_pi at_zero : list V) :
  _brdf self = Some (Sampled bsdf) ->
  Forall2 (fun theta v =>
             bsdf_evaluate bsdf (theta, angle_pi) (_wi self) (_wavelength self) = Ok v)
    (_zen self) at_pi ->
  Forall2 (fun theta v =>
             bsdf_evaluate bsdf (theta, angle_zero) (_wi self) (_wavelength self) = Ok v)
    (_zen self) at_zero ->
  evaluate self = (set_z self (rev at_pi ++ at_zero)%list, Ok tt)
  /\ to_xarray (set_z self (rev at_pi ++ at_zero)%list)
     = Ok (mk_plane_array [angle_pi; angle_zero] (_zen self) [at_pi; at_zero]).
Proof.
  intros Hb Hpi Hzero.
  pose proof (Forall2_length _ _ _ Hpi) as Lpi.
  pose proof (Forall2_length _ _ _ Hzero) as Lzero.
  split.
  - unfold principal_evaluate. cbn [_brdf set_z _zen _wi _wavelength]. rewrite Hb.
    cbn [adapter_flag]. change (FLAG_SAMPLED_ADAPTER =? FLAG_GRIDDED_ADAPTER) with false.
    change (FLAG_SAMPLED_ADAPTER =? FLAG_SAMPLED_ADAPTER) with true. cbv iota.
    rewrite (sample_loop_up _ angle_zero (length (_zen self)) _ at_zero 0 _ Hzero).
    rewrite (sample_loop_down _ angle_pi (length (_zen self)) _ at_pi 0 _ Hpi) by lia.
    replace (length (_zen self) - 0 - length (_zen self))%nat with 0%nat by lia.
    cbn [Nat.add]. rewrite sampled_halves by (rewrite ?length_rev; lia).
    reflexivity.
  - destruct (principal_to_xarray_spec (set_z self (rev at_pi ++ at_zero)%list)
                (rev at_pi ++ at_zero)%list eq_refl) as [Hx _].
    rewrite Hx. cbn [_zen set_z].
    assert (Hlen : length (rev at_pi ++ at_zero)%list = (2 * length (_zen self))%nat).
    { rewrite length_app, length_rev. lia. }
    rewrite Hlen.
    replace ((2 * length (_zen self) + 1) / 2)%nat with (length (_zen self)).
    2:{ apply (Nat.div_unique _ 2 _ 1); lia. }
    replace (2 * length (_zen self) / 2)%nat with (length (_zen self)).
    2:{ rewrite Nat.mul_comm. symmetry. apply Nat.div_mul. lia. }
    rewrite decide_True by reflexivity.
    rewrite take_app_length' by (rewrite length_rev; lia).
    rewrite drop_app_length' by (rewrite length_rev; lia).
    rewrite rev_involutive. reflexivity.
Qed.

(** *** The gridded branch of the principal plane *)



(** X13: when the grid has no phi_o = 180, or the selection itself
    fails, the gridded branch raises after [_z] has been reset to zeros;
    [zen] and the other attributes are as they were. *)
Theorem principal_gridded_failure (self : PrincipalPlaneView V angle BSDF)
    (a : adapter V) (theta_i phi_i : Z) :
  _brdf self = Some (Gridded a) ->
  flag V a = FLAG_GRIDDED_ADAPTER ->
  _wi self = [theta_i; phi_i] ->
  let reset := set_z self (replicate (length (_zen self) * 2) zero) in
  (forall e, plotting_data V a (theta_i, phi_i) (_wavelength self) = Raise e ->
     evaluate self = (reset, Raise e))
  /\ (forall thetas phis slice,
        plotting_data V a (theta_i, phi_i) (_wavelength self)
        = Ok (thetas, phis, slice) ->
        (180 ∉ phis) ->
        evaluate self = (reset, Raise needs_180)).
Proof.
  intros Hb Hflag Hwi reset.
  split.
  - intros e Hplot. unfold principal_evaluate.
    cbn [_brdf set_z _zen _wi _wavelength]. rewrite Hb. cbn [adapter_flag].
    rewrite Hflag.
    change (FLAG_GRIDDED_ADAPTER =? FLAG_GRIDDED_ADAPTER) with true. cbv iota.
    rewrite Hwi. cbn [unpack_wi]. cbn [mbind result_bind]. rewrite Hplot.
    reflexivity.
  - intros thetas phis slice Hplot H180. unfold principal_evaluate.
    cbn [_brdf set_z _zen _wi _wavelength]. rewrite Hb. cbn [adapter_flag].
    rewrite Hflag.
    change (FLAG_GRIDDED_ADAPTER =? FLAG_GRIDDED_ADAPTER) with true. cbv iota.
    rewrite Hwi. cbn [unpack_wi]. cbn [mbind result_bind]. rewrite Hplot.
    rewrite (proj2 (contains_not_elem_of phis 180) H180). reflexivity.
Qed.

(** *** The [brdf] setter *)

(** X9: assigning an array to [brdf] either stores a gridded adapter
    that holds the array as supplied, which happens only for an array
    with the five axes and both 0 and 360 among its [phi_o] labels, or
    raises the constructor's error and leaves the view as it was. *)
Theorem brdf_setter_data_array {Zt : Type} (self : BRDFView V angle BSDF Zt)
    (d : DataArray V) :
  (brdf_setter V zero angle BSDF self (SourceDataArray V BSDF d)
   = (set_brdf self (Gridded (mk_adapter V d FLAG_GRIDDED_ADAPTER)), Ok tt)
   /\ Forall (fun dim => dim ∈ dims d) required_dims
   /\ exists phi_o, coord d "phi_o" = Ok phi_o /\ 0 ∈ phi_o /\ 360 ∈ phi_o)
  \/ (exists e,
        brdf_setter V zero angle BSDF self (SourceDataArray V BSDF d)
        = (self, Raise e)
        /\ DataArrayBRDFAdapter V zero (PyDataArray V d) = Raise e).
Proof.
  unfold brdf_setter.
  destruct (DataArrayBRDFAdapter V zero (PyDataArray V d)) as [a|e] eqn:Hcons.
  - left. destruct (constructed_inv zero _ _ Hcons)
      as (d' & phi_o & Hd & -> & Hdims & Hphi & H0 & H360).
    injection Hd as <-. split; [reflexivity |]. split; [exact Hdims |].
    exists phi_o. auto.
  - right. exists e. split; reflexivity.
Qed.

(** *** The gridded branch of the polar view *)

Local Abbreviation polar_eval :=
  (polar_evaluate V zero angle deg2rad BSDF bsdf_evaluate).



End ViewFacts.

(** *** Angular resolutions *)

Section ResolutionFacts.

Context {V angle float BSDF Zt : Type}.
Variables angle_zero angle_two_pi angle_half_pi : angle.
Variable linspace : angle -> angle -> nat -> list angle.
Variable float_of_int : Z -> float.
Variable ceil_quotient : Z -> Z -> Z.
Variable true_div : Z -> Z -> float.

(** [np.linspace] returns as many samples as it is asked for; a
    quotient of 360 or 90 that is a whole number is computed exactly. *)
Hypothesis linspace_length :
  forall start stop n, length (linspace start stop n) = n.
Hypothesis ceil_quotient_exact :
  forall span res k,
    span = 360 \/ span = 90 -> res * k = span -> ceil_quotient span res = k.
Hypothesis true_div_exact :
  forall n k, n * k = 360 -> true_div 360 n = float_of_int k.

(** X14: setting [azm_res] to a positive divisor of 360 and reading it
    back returns the same resolution; the azimuth grid then has
    360 / res + 1 samples. *)
Theorem azm_res_round_trip (self : BRDFView V angle BSDF Zt) (res k : Z) :
  0 < res -> res * k = 360 ->
  let azm := linspace angle_zero angle_two_pi (Z.to_nat (k + 1)) in
  azm_res_setter V angle angle_zero linspace angle_two_pi ceil_quotient BSDF
    self res = (set_azm self azm, Returned tt)
  /\ length azm = Z.to_nat (k + 1)
  /\ azm_res V angle float true_div BSDF (set_azm self azm)
     = Returned (float_of_int res).
Proof.
  intros Hres Hk azm. assert (0 < k) by nia.
  repeat split.
  - unfold azm_res_setter, resolution_steps.
    rewrite (proj2 (Z.eqb_neq res 0)) by lia.
    rewrite (ceil_quotient_exact 360 res k) by auto.
    unfold azm_steps_setter, np_linspace.
    rewrite (proj2 (Z.ltb_ge (k + 1) 0)) by lia. reflexivity.
  - apply linspace_length.
  - unfold azm_res, resolution_of. cbn [_azm set_azm].
    unfold azm. rewrite linspace_length.
    replace (Z.of_nat (Z.to_nat (k + 1)) - 1) with k by lia.
    rewrite (proj2 (Z.eqb_neq k 0)) by lia.
    rewrite (true_div_exact k res) by lia. reflexivity.
Qed.

(** X15: setting [zen_res] to a positive divisor of 90 and reading it
    back returns four times the resolution that was set: the setter
    divides 90 by it, the getter divides 360 by the number of steps. *)
Theorem zen_res_reads_back_fourfold (self : BRDFView V angle BSDF Zt) (res k : Z) :
  0 < res -> res * k = 90 ->
  let zen := linspace angle_zero angle_half_pi (Z.to_nat (k + 1)) in
  zen_res_setter V angle angle_zero linspace angle_half_pi ceil_quotient BSDF
    self res = (set_zen self zen, Returned tt)
  /\ length zen = Z.to_nat (k + 1)
  /\ zen_res V angle float true_div BSDF (set_zen self zen)
     = Returned (float_of_int (4 * res)).
Proof.
  intros Hres Hk zen. assert (0 < k) by nia.
  repeat split.
  - unfold zen_res_setter, resolution_steps.
    rewrite (proj2 (Z.eqb_neq res 0)) by lia.
    rewrite (ceil_quotient_exact 90 res k) by auto.
    unfold zen_steps_setter, np_linspace.
    rewrite (proj2 (Z.ltb_ge (k + 1) 0)) by lia. reflexivity.
  - apply linspace_length.
  - unfold zen_res, resolution_of. cbn [_zen set_zen].
    unfold zen. rewrite linspace_length.
    replace (Z.of_nat (Z.to_nat (k + 1)) - 1) with k by lia.
    rewrite (proj2 (Z.eqb_neq k 0)) by lia.
    rewrite (true_div_exact k (4 * res)) by lia. reflexivity.
Qed.

End ResolutionFacts.

(** *** The sampled branch of the polar view *)

Section PolarSampled.

Context {V : Type} (zero : V) {angle : Type}.
Variable deg2rad : Z -> angle.
Context {BSDF : Type}.
Variable bsdf_evaluate : BSDF -> angle * angle -> list Z -> Z -> result V.

Lemma polar_row_spec (ev : angle * angle -> result V) (f : angle -> angle -> V)
    (phi : angle) (i : nat) (zen : list angle) (j : nat) (z : ndarray V) :
  (forall theta, theta ∈ zen -> ev (theta, phi) = Ok (f theta phi)) ->
  exists z',
    polar_row V angle ev phi i zen j z = (z', Ok tt)
    /\ shape z' = shape z
    /\ (forall j' theta, zen !! j' = Some theta ->
          item z' [i; (j + j')%nat] = f theta phi)
    /\ (forall idx, (forall j', (j' < length zen)%nat -> idx <> [i; (j + j')%nat]) ->
          item z' idx = item z idx).
Proof.
  revert j z. induction zen as [|theta zen IH]; intros j z Hev.
  - exists z. split; [reflexivity |]. split; [reflexivity |].
    split; [intros j' t H; discriminate | intros; reflexivity].
  - cbn [polar_row]. rewrite (Hev theta) by left.
    destruct (IH (S j) (set_cell V z [i; j] (f theta phi))) as (z' & Hrow & Hsh & Hset & Hkeep).
    { intros t Ht. apply Hev. right. exact Ht. }
    exists z'. split; [exact Hrow |]. split; [exact Hsh |]. split.
    + intros [|j'] t Ht.
      * injection Ht as <-. rewrite Hkeep.
        -- cbn. rewrite Nat.add_0_r, decide_True by reflexivity. reflexivity.
        -- intros j'' _. intros [= Heq]. lia.
      * replace (j + S j')%nat with (S j + j')%nat by lia. apply Hset. exact Ht.
    + intros idx Hidx. rewrite Hkeep.
      * cbn. rewrite decide_False; [reflexivity |].
        specialize (Hidx 0%nat ltac:(cbn; lia)). rewrite Nat.add_0_r in Hidx. exact Hidx.
      * intros j' Hj'. replace (S j + j')%nat with (j + S j')%nat by lia.
        apply Hidx. cbn. lia.
Qed.

Lemma polar_rows_spec (ev : angle * angle -> result V) (f : angle -> angle -> V)
    (azm : list angle) (i : nat) (zen : list angle) (z : ndarray V) :
  (forall theta phi, theta ∈ zen -> phi ∈ azm -> ev (theta, phi) = Ok (f theta phi)) ->
  exists z',
    polar_rows V angle ev azm i zen z = (z', Ok tt)
    /\ shape z' = shape z
    /\ (forall i' j' phi theta, azm !! i' = Some phi -> zen !! j' = Some theta ->
          item z' [(i + i')%nat; j'] = f theta phi).
Proof.
  revert i z. induction azm as [|phi azm IH]; intros i z Hev.
  - exists z. split; [reflexivity |]. split; [reflexivity |].
    intros i' j' p t H; discriminate.
  - cbn [polar_rows].
    destruct (polar_row_spec ev f phi i zen 0 z) as (z1 & Hrow & Hsh1 & Hset1 & _).
    { intros t Ht. apply Hev; [exact Ht | left]. }
    rewrite Hrow.
    assert (Hlater : forall (azm' : list angle) i0 z0 z',
              polar_rows V angle ev azm' i0 zen z0 = (z', Ok tt) ->
              forall i1 j1, (i1 < i0)%nat -> item z' [i1; j1] = item z0 [i1; j1]).
    { clear. induction azm' as [|p azm' IH']; intros i0 z0 z' Hrows i1 j1 Hlt.
      - cbn in Hrows. injection Hrows as <-. reflexivity.
      - cbn [polar_rows] in Hrows.
        destruct (polar_row V angle ev p i0 zen 0 z0) as [z2 [[]|e]] eqn:Hr;
          [| discriminate].
        rewrite (IH' _ _ _ Hrows i1 j1) by lia.
        clear Hrows IH'. revert Hr. generalize 0%nat. revert z0.
        induction zen as [|t zen0 IHz]; intros z0 j0 Hr.
        + cbn in Hr. injection Hr as <-. reflexivity.
        + cbn [polar_row] in Hr. destruct (ev (t, p)) as [v|e]; [| discriminate].
          rewrite (IHz _ _ Hr). cbn. rewrite decide_False; [reflexivity |].
          intros [= Heq]. lia. }
    destruct (IH (S i) z1) as (z' & Hrows & Hsh & Hset).
    { intros t p Ht Hp. apply Hev; [exact Ht | right; exact Hp]. }
    exists z'. split; [exact Hrows |]. split; [congruence |].
    intros [|i'] j' p t Hp Ht.
    + injection Hp as <-. rewrite Nat.add_0_r.
      rewrite (Hlater _ _ _ _ Hrows) by lia.
      apply (Hset1 j' t Ht).
    + replace (i + S i')%nat with (S i + i')%nat by lia. eapply Hset; eauto.
Qed.

(** X19: on a sampled adapter whose evaluations all succeed, the polar
    [evaluate] fills an array of shape (len azm, len zen) whose cell
    (i, j) is the value for outgoing zenith [zen[j]] and azimuth
    [azm[i]]; [to_xarray] returns it with the view's own angles as
    coordinates. *)
Theorem polar_sampled_cells (self : PolarView V angle BSDF) (bsdf : BSDF)
    (f : angle -> angle -> V) :
  let view := polar_view self in
  _brdf view = Some (Sampled bsdf) ->
  (forall theta phi, theta ∈ _zen view -> phi ∈ _azm view ->
     bsdf_evaluate bsdf (theta, phi) (_wi view) (_wavelength view)
     = Ok (f theta phi)) ->
  exists done cells,
    polar_evaluate V zero angle deg2rad BSDF bsdf_evaluate self = (done, Ok tt)
    /\ shape cells = [length (_azm view); length (_zen view)]
    /\ (forall i j phi theta,
          _azm view !! i = Some phi -> _zen view !! j = Some theta ->
          item cells [i; j] = f theta phi)
    /\ polar_to_xarray V angle BSDF done
       = Ok (mk_polar_array (_azm view) (_zen view) cells).
Proof.
  intros view Hb Hev.
  destruct (polar_rows_spec
              (fun wo => bsdf_evaluate bsdf wo (_wi view) (_wavelength view)) f
              (_azm view) 0 (_zen view)
              (mk_ndarray [length (_azm view); length (_zen view)] (fun _ => zero)))
    as (cells & Hrows & Hshape & Hcells).
  { exact Hev. }
  eexists. exists cells. split.
  { unfold polar_evaluate. fold view. rewrite Hb. cbn [adapter_flag].
    change (FLAG_SAMPLED_ADAPTER =? FLAG_GRIDDED_ADAPTER) with false.
    change (FLAG_SAMPLED_ADAPTER =? FLAG_SAMPLED_ADAPTER) with true. cbv iota.
    unfold meshgrid. rewrite Hrows. reflexivity. }
  cbn [shape] in Hshape. split; [exact Hshape |]. split.
  { intros i j phi theta Hi Hj. apply (Hcells i j phi theta Hi Hj). }
  unfold polar_to_xarray. cbn [polar_view _z set_z _azm _zen].
  rewrite Hshape. rewrite decide_True by (split; reflexivity). reflexivity.
Qed.

End PolarSampled.

(** * The further statements at the sample inputs *)

Import ViewSamples.

Ltac by_evaluation :=
  first [ reflexivity
        | vm_compute; reflexivity
        | apply (bool_decide_unpack _); vm_compute; exact I ].

Lemma open_path_success_inv_witness :
  exists fname root,
    resolve_here "data.nc" = Ok fname
    /\ fname = root ++ ".nc"
    /\ load_length fname = Ok 7.
Proof.
  apply (open_path_success_inv empty_getter thuillier_getter resolve_here
           load_length None None "data.nc" 7).
  by_evaluation.
Defined.

Lemma construction_inversion_witness :
  exists d phi_o,
    PyDataArray Z grid_complete = PyDataArray Z d
    /\ adapter_complete = mk_adapter Z d FLAG_GRIDDED_ADAPTER
    /\ Forall (fun dim => dim ∈ dims d) required_dims
    /\ coord d "phi_o" = Ok phi_o
    /\ 0 ∈ phi_o /\ 360 ∈ phi_o.
Proof.
  apply (construction_inversion 0 (PyDataArray Z grid_complete) adapter_complete).
  by_evaluation.
Defined.

Lemma incomplete_grid_raises_attribute_error_witness :
  DataArrayBRDFAdapter Z 0 (PyDataArray Z grid_missing_360)
  = Raise (no_attribute "copy_phi_o_values").
Proof.
  apply (incomplete_grid_raises_attribute_error 0 grid_missing_360
           [0; 90; 180; 270]).
  - by_evaluation.
  - by_evaluation.
  - right. by_evaluation.
Defined.

Lemma completion_helper_completes_witness :
  exists r,
    _copy_phi_o_values Z 0 grid_missing_360 0 360 = Ok r
    /\ axes r = [("phi_o", [0; 90; 180; 270; 360]); ("theta_i", [0; 30]);
                 ("phi_i", [0]); ("theta_o", [0; 45]); ("wavelength", [550])]
    /\ (forall env, at_name r (upd env "phi_o" 4%nat)
                    = at_name grid_missing_360 (upd env "phi_o" 0%nat))
    /\ (forall env, (360 ∉ [0; 90; 180; 270]) -> in_grid grid_missing_360 env ->
                    at_name r env = at_name grid_missing_360 env).
Proof.
  apply (completion_helper_completes 0 grid_missing_360 0 360
           [0; 30] [0] [0; 45] [0; 90; 180; 270] [550] 0); by_evaluation.
Defined.

Lemma copy_phi_o_values_missing_origin_witness :
  _copy_phi_o_values Z 0 grid_no_boundary 360 0 = Raise (KeyError (NumKey 360)).
Proof.
  apply (copy_phi_o_values_missing_origin 0 grid_no_boundary 360 0
           [0; 30] [0] [0; 45] [10; 90; 180] [550]); by_evaluation.
Defined.

Lemma plotting_data_transposed_storage_witness :
  exists theta_o phi_o slice,
    plotting_data Z adapter_transposed (0, 0) 550 = Ok (theta_o, phi_o, slice)
    /\ coord (data Z adapter_transposed) "theta_o" = Ok theta_o
    /\ coord (data Z adapter_transposed) "phi_o" = Ok phi_o
    /\ shape slice = [length phi_o; length theta_o]
    /\ forall p1 p2 p3 env,
         [0; 30] !! p1 = Some 0 -> [0] !! p2 = Some 0 ->
         [550] !! p3 = Some 550 ->
         item slice [env "phi_o"; env "theta_o"]
         = at_name (data Z adapter_transposed) (at_incoming p1 p2 p3 env).
Proof.
  apply (plotting_data_transposed_storage adapter_transposed 0 0 550
           [0; 30] [0] [550]); try by_evaluation.
  - unfold five_dimensional. by_evaluation.
  - exists ["theta_i"; "phi_i"], [], ["wavelength"]. reflexivity.
Defined.

Lemma brdf_setter_accepts_complete_grid :
  brdf_setter Z 0 Z unit sampled_view (SourceDataArray Z unit grid_complete)
  = (gridded_view, Ok tt).
Proof. reflexivity. Qed.


Lemma principal_sampled_round_trip_witness :
  principal_evaluate Z 0 Z millirad 0 3142 unit sum_of_angles sampled_view
  = (set_z sampled_view [4713; 3927; 3142; 0; 785; 1571], Ok tt)
  /\ principal_to_xarray Z Z 0 3142 unit
       (set_z sampled_view [4713; 3927; 3142; 0; 785; 1571])
     = Ok (mk_plane_array [3142; 0] [0; 785; 1571]
             [[3142; 3927; 4713]; [0; 785; 1571]]).
Proof.
  apply (principal_sampled_round_trip 0 millirad 0 3142 sum_of_angles
           sampled_view tt [3142; 3927; 4713] [0; 785; 1571]).
  - by_evaluation.
  - repeat constructor.
  - repeat constructor.
Defined.


Lemma principal_gridded_failure_witness :
  principal_evaluate Z 0 Z millirad 0 3142 unit sum_of_angles no_180_view
  = (set_z no_180_view (replicate 6 0), Raise needs_180).
Proof.
  eapply (proj2 (principal_gridded_failure 0 millirad 0 3142 sum_of_angles
                   no_180_view adapter_no_180 30 0 eq_refl eq_refl eq_refl)).
  - lazy. reflexivity.
  - by_evaluation.
Defined.

Lemma even_steps_length (start stop : Z) (n : nat) :
  length (even_steps start stop n) = n.
Proof. unfold even_steps. rewrite length_fmap, length_seq. reflexivity. Qed.

Lemma ceil_div_exact (span res k : Z) :
  span = 360 \/ span = 90 -> res * k = span -> ceil_div span res = k.
Proof.
  intros Hspan Hk. subst span. unfold ceil_div.
  assert (res <> 0) by (destruct Hspan; nia).
  replace (- (res * k)) with (- k * res) by ring.
  rewrite Z.div_mul by assumption. lia.
Qed.

Lemma div_360_exact (n k : Z) : n * k = 360 -> 360 / n = k.
Proof.
  intros Hk. assert (n <> 0) by nia.
  rewrite <- Hk, Z.mul_comm. apply Z.div_mul. assumption.
Qed.

Lemma azm_res_round_trip_witness :
  let azm := even_steps 0 6283 5 in
  azm_res_setter Z Z 0 even_steps 6283 ceil_div unit
    (sampled_view : BRDFView Z Z unit (list Z)) 90
  = (set_azm sampled_view azm, Returned tt)
  /\ length azm = 5%nat
  /\ azm_res Z Z Z Z.div unit (set_azm sampled_view azm) = Returned 90.
Proof.
  apply (azm_res_round_trip 0 6283 even_steps (fun n => n) ceil_div Z.div
           even_steps_length ceil_div_exact div_360_exact sampled_view 90 4);
    by_evaluation.
Defined.

Lemma zen_res_reads_back_fourfold_witness :
  let zen := even_steps 0 1571 4 in
  zen_res_setter Z Z 0 even_steps 1571 ceil_div unit
    (sampled_view : BRDFView Z Z unit (list Z)) 30
  = (set_zen sampled_view zen, Returned tt)
  /\ length zen = 4%nat
  /\ zen_res Z Z Z Z.div unit (set_zen sampled_view zen) = Returned 120.
Proof.
  apply (zen_res_reads_back_fourfold 0 1571 even_steps (fun n => n) ceil_div Z.div
           even_steps_length ceil_div_exact div_360_exact sampled_view 30 3);
    by_evaluation.
Defined.




Lemma polar_sampled_cells_witness :
  exists done cells,
    polar_evaluate Z 0 Z millirad unit sum_of_angles
      (mk_polar (view_on (Sampled tt)) None None) = (done, Ok tt)
    /\ shape cells = [3; 3]%nat
    /\ (forall i j phi theta,
          [0; 3142; 6283] !! i = Some phi -> [0; 785; 1571] !! j = Some theta ->
          item cells [i; j] = theta + phi)
    /\ polar_to_xarray Z Z unit done
       = Ok (mk_polar_array [0; 3142; 6283] [0; 785; 1571] cells).
Proof.
  apply (polar_sampled_cells 0 millirad sum_of_angles
           (mk_polar (view_on (Sampled tt)) None None) tt (fun theta phi => theta + phi)).
  - by_evaluation.
  - intros theta phi _ _. reflexivity.
Defined.
